(** * knittingpattern: rendering instructions to SVG

    A shallow embedding of [knittingpattern/convert/InstructionToSVG.py]
    (class [InstructionToSVG]) together with the properties of its
    rendering operations.

    - XML dictionaries produced by [xmltodict.parse] are modelled by the
      inductive type [xml]; a Python [dict] is an association list with the
      insertion order that [items()] enumerates.
    - Python exceptions are modelled by the error type [exn] and the
      [result] monad.
    - [self._instruction_type_to_file_content] is a [gmap string string]
      threaded through a small state-and-error monad [M].
    - [xmltodict.parse], [os.path.basename], [os.path.splitext] and the file
      system are external to the repository: they are the Variables of the
      section that embeds the class. *)

From Stdlib Require Import Strings.String Strings.Ascii Lists.List Bool.Bool Lia.
From stdpp Require Import base option list gmap strings.
Import ListNotations.
Local Open Scope string_scope.
#[local] Arguments String.append !s1 s2 : simpl nomatch.

(** ** Exceptions *)

Inductive exn : Type :=
| KeyError        (* d[k] for a key that is absent *)
| TypeError       (* subscripting None, a str or a list with a str key *)
| AttributeError  (* .get or .split on an object that has no such method *)
| ExpatError      (* xmltodict.parse on malformed markup *)
| OSError.        (* open(path) on a path that cannot be read *)

Inductive result (A : Type) : Type :=
| Ok (a : A)
| Raise (e : exn).
Arguments Ok {A} a.
Arguments Raise {A} e.

Definition result_bind {A B} (r : result A) (k : A -> result B) : result B :=
  match r with
  | Ok a => k a
  | Raise e => Raise e
  end.

Definition result_map {A B} (f : A -> B) (r : result A) : result B :=
  result_bind r (fun a => Ok (f a)).

Declare Scope result_scope.
Delimit Scope result_scope with result.
Notation "'let*' x ':=' r 'in' k" := (result_bind r (fun x => k))
  (at level 10, x name, r at level 100, k at level 200) : result_scope.
Local Open Scope result_scope.

(** A [for] loop whose body may raise: the elements are visited in order and
    the first exception aborts the loop. *)
Fixpoint for_each {A B} (f : A -> result B) (l : list A) : result (list B) :=
  match l with
  | [] => Ok []
  | x :: l' =>
      let* y := f x in
      let* ys := for_each f l' in
      Ok (y :: ys)
  end.

(** ** Parsed markup: the values built by [xmltodict.parse] *)

Set Warnings "-register-all".
Inductive xml : Type :=
| XNone                                   (* None: an element without content *)
| XStr (s : string)                       (* str: attribute value or text *)
| XDict (items : list (string * xml))     (* dict / OrderedDict *)
| XList (elements : list xml).            (* list: repeated sibling elements *)

Abbreviation dict := (list (string * xml)).

(** [d.get(k)] on the entries of a dictionary, [None] when absent. *)
Fixpoint dict_lookup (d : dict) (k : string) : option xml :=
  match d with
  | [] => None
  | (k', v) :: d' => if String.eqb k' k then Some v else dict_lookup d' k
  end.

(** [d[k] = v]: an existing key keeps its position, a new key is appended. *)
Fixpoint dict_set (d : dict) (k : string) (v : xml) : dict :=
  match d with
  | [] => [(k, v)]
  | (k', v') :: d' =>
      if String.eqb k' k then (k', v) :: d' else (k', v') :: dict_set d' k v
  end.

(** [d.get(k, None)] as a Python value. *)
Definition dict_get (d : dict) (k : string) : xml :=
  match dict_lookup d k with
  | Some v => v
  | None => XNone
  end.

(** [v[k]] for a string key [k]. *)
Definition getitem (v : xml) (k : string) : result xml :=
  match v with
  | XDict d =>
      match dict_lookup d k with
      | Some x => Ok x
      | None => Raise KeyError
      end
  | XNone | XStr _ | XList _ => Raise TypeError
  end.

(** The effect on [v] of mutating in place the object stored at [v[k]]:
    the parsed tree has no aliasing (every node is referenced by its parent
    only), so the mutation is the replacement of the entry at the same
    position. *)
Definition with_item (v : xml) (k : string) (x : xml) : xml :=
  match v with
  | XDict d => XDict (dict_set d k x)
  | XNone | XStr _ | XList _ => v
  end.

(** [v == s] for a str literal [s]. *)
Definition eq_str (v : xml) (s : string) : bool :=
  match v with
  | XStr s' => String.eqb s' s
  | XNone | XDict _ | XList _ => false
  end.

(** Truth value of [v] in [if v:]. *)
Definition truthy (v : xml) : bool :=
  match v with
  | XNone => false
  | XStr s => negb (String.eqb s "")
  | XDict d => match d with [] => false | _ :: _ => true end
  | XList l => match l with [] => false | _ :: _ => true end
  end.

(** [if not isinstance(v, list): v = [v]]. *)
Definition as_list (v : xml) : list xml :=
  match v with
  | XList l => l
  | XNone | XStr _ | XDict _ => [v]
  end.

(** The value designated by [v] after the objects enumerated by [as_list v]
    were mutated into [l]: the list itself when [v] is one, else the single
    object. *)
Definition of_list (v : xml) (l : list xml) : xml :=
  match v with
  | XList _ => XList l
  | XNone | XStr _ | XDict _ => match l with x :: _ => x | [] => v end
  end.

(** ** Strings: [startswith], [split], [join], [replace] *)

(** [s.split(sep)] for a one-character separator. *)
Fixpoint split (sep : ascii) (s : string) : list string :=
  match s with
  | EmptyString => [EmptyString]
  | String c s' =>
      if Ascii.eqb c sep then EmptyString :: split sep s'
      else match split sep s' with
           | h :: t => String c h :: t
           | [] => [String c EmptyString]
           end
  end.

(** [sep.join(l)]. *)
Fixpoint join (sep : string) (l : list string) : string :=
  match l with
  | [] => EmptyString
  | [x] => x
  | x :: l' => x ++ sep ++ join sep l'
  end.

(** [s] without its prefix [p], when it starts with [p]. *)
Fixpoint strip_prefix (p s : string) : option string :=
  match p, s with
  | EmptyString, _ => Some s
  | String a p', String b s' =>
      if Ascii.eqb a b then strip_prefix p' s' else None
  | String _ _, EmptyString => None
  end.

(** [s.startswith(p)] *)
Definition startswith (s p : string) : bool :=
  match strip_prefix p s with
  | Some _ => true
  | None => false
  end.

(** [s.replace(old, new)] for a non-empty [old]: a left-to-right scan that
    replaces each occurrence found and resumes after it.  [fuel] bounds the
    number of scan steps; every step consumes a character of [s], so
    [String.length s] steps always suffice. *)
Fixpoint replace_scan (fuel : nat) (old new s : string) : string :=
  match fuel with
  | O => s
  | S fuel' =>
      match strip_prefix old s with
      | Some rest => new ++ replace_scan fuel' old new rest
      | None =>
          match s with
          | EmptyString => EmptyString
          | String c s' => String c (replace_scan fuel' old new s')
          end
      end
  end.

(** [s.replace("", new)]: [new] before every character and at the end. *)
Fixpoint intersperse (new s : string) : string :=
  match s with
  | EmptyString => new
  | String c s' => new ++ String c (intersperse new s')
  end.

Definition replace (s old new : string) : string :=
  match old with
  | EmptyString => intersperse new s
  | String _ _ => replace_scan (String.length s) old new s
  end.

(** [old in s] *)
Fixpoint contains (s old : string) : bool :=
  match strip_prefix old s with
  | Some _ => true
  | None =>
      match s with
      | EmptyString => false
      | String _ s' => contains s' old
      end
  end.

(** ** The recolouring of [_set_fills_in_color_layer] (lines 99-123) *)

(** Lines 115-121: the new value of a style string. *)
Definition recolor_declaration (color e : string) : string :=
  if startswith e "fill:" then "fill:" ++ color else e.

Definition recolor_style (color style : string) : string :=
  join ";" (map (recolor_declaration color) (split ";" style)).

(** Lines 113-122, the body of [for element in elements]. *)
Definition recolor_element (color : string) (element : xml) : result xml :=
  match element with
  | XDict d =>
      let style := dict_get d "@style" in
      if truthy style then
        match style with
        | XStr s => Ok (XDict (dict_set d "@style" (XStr (recolor_style color s))))
        | XNone | XDict _ | XList _ => Raise AttributeError   (* style.split *)
        end
      else Ok element
  | XNone | XStr _ | XList _ => Raise AttributeError          (* element.get *)
  end.

(** Lines 110-122 for one value of [layer.items()]. *)
Definition recolor_elements (color : string) (elements : xml) : result xml :=
  let* l := for_each (recolor_element color) (as_list elements) in
  Ok (of_list elements l).

Definition is_skipped_key (key : string) : bool :=
  startswith key "@" || startswith key "#".

(** Lines 107-122, the body of [for key, elements in layer.items()]. *)
Definition recolor_item (color : string) (item : string * xml)
  : result (string * xml) :=
  let '(key, elements) := item in
  if is_skipped_key key then Ok item
  else
    let* elements' := recolor_elements color elements in
    Ok (key, elements').

(** Lines 105-106. *)
Definition is_color_layer (layer : dict) : bool :=
  eq_str (dict_get layer "@inkscape:label") "color"
  && eq_str (dict_get layer "@inkscape:groupmode") "layer".

(** Lines 103-122, the body of [for layer in layers]. *)
Definition recolor_layer (color : string) (layer : xml) : result xml :=
  match layer with
  | XDict d =>
      if is_color_layer d then
        let* d' := for_each (recolor_item color) d in
        Ok (XDict d')
      else Ok layer
  | XNone | XStr _ | XList _ => Ok layer      (* not isinstance(layer, dict) *)
  end.

(** Lines 99-123: [structure] after the loops, for a color that is not
    [None]. *)
Definition set_fills (structure : xml) (color : string) : result xml :=
  let* svg := getitem structure "svg" in
  let* layers := getitem svg "g" in
  let* layers' := for_each (recolor_layer color) (as_list layers) in
  Ok (with_item structure "svg" (with_item svg "g" (of_list layers layers'))).

(** ** The class [InstructionToSVG] *)

(** An instruction, as far as this module reads it: [instruction.type] and
    [instruction.color], the latter possibly [None]. *)
Record Instruction : Type := {
  type : string;
  color : option string
}.

(** [self._instruction_type_to_file_content] *)
Abbreviation registry := (gmap string string).

(** Methods run on the state of [self] and may raise. *)
Definition M (A : Type) : Type := registry -> result A * registry.

Definition ret {A} (a : A) : M A := fun self => (Ok a, self).

Definition bind {A B} (m : M A) (k : A -> M B) : M B :=
  fun self =>
    match m self with
    | (Ok a, self') => k a self'
    | (Raise e, self') => (Raise e, self')
    end.

Definition lift {A} (r : result A) : M A := fun self => (r, self).

Definition file_content : M registry := fun self => (Ok self, self).

Definition set_file_content (name string : string) : M unit :=
  fun self => (Ok tt, <[name := string]> self).

Declare Scope method_scope.
Delimit Scope method_scope with method.
Notation "'do*' x ':=' m 'in' k" := (bind m (fun x => k))
  (at level 10, x name, m at level 100, k at level 200) : method_scope.

Definition REPLACE_IN_DEFAULT_SVG : string := "{instruction.type}".

Section InstructionToSVG.

(** [xmltodict.parse]; it raises on malformed markup. *)
Variable parse : string -> result xml.
(** [os.path.basename] and [os.path.splitext]. *)
Variable basename : string -> string.
Variable splitext : string -> string * string.
(** [open(path).read()] *)
Variable read : string -> result string.

Local Open Scope method_scope.

Definition _process_loaded_object (path : string) : M unit :=
  let file_name := basename path in
  let name := fst (splitext file_name) in
  do* string := lift (read path) in
  set_file_content name string.

Definition _set_fills_in_color_layer (svg_string : string)
    (color : option string) : result xml :=
  let* structure := parse svg_string in
  match color with
  | None => Ok structure
  | Some color => set_fills structure color
  end.

Definition default_instruction_to_svg_dict (instruction : Instruction)
  : M xml :=
  let instruction_type := type instruction in
  let default_type := "default" in
  let rep_str := "{instruction.type}" in
  do* content := file_content in
  match content !! default_type with
  | None => ret (XDict [("svg", XStr "")])
  | Some default_svg =>
      let default_svg := replace default_svg rep_str instruction_type in
      let colored_svg :=
        _set_fills_in_color_layer default_svg (color instruction) in
      lift colored_svg
  end.

Definition instruction_to_svg_dict (instruction : Instruction) : M xml :=
  let instruction_type := type instruction in
  do* content := file_content in
  match content !! instruction_type with
  | Some svg => lift (_set_fills_in_color_layer svg (color instruction))
  | None => default_instruction_to_svg_dict instruction
  end.

Definition has_svg_for_instruction (instruction : Instruction) : M bool :=
  let instruction_type := type instruction in
  do* content := file_content in
  ret (bool_decide (is_Some (content !! instruction_type))).

End InstructionToSVG.

(** ** Vocabulary of the statements *)

(** Positions in a parsed tree: a dictionary key or a list index per step. *)
Inductive step : Type :=
| Key (k : string)
| Idx (i : nat).

Fixpoint subtree (p : list step) (t : xml) : option xml :=
  match p with
  | [] => Some t
  | Key k :: p' =>
      match t with
      | XDict d =>
          match dict_lookup d k with
          | Some x => subtree p' x
          | None => None
          end
      | XNone | XStr _ | XList _ => None
      end
  | Idx i :: p' =>
      match t with
      | XList l =>
          match l !! i with
          | Some x => subtree p' x
          | None => None
          end
      | XNone | XStr _ | XDict _ => None
      end
  end.

(** The entry [k] of an element, if it is a node that has one: an attribute
    for a key [@name], the text for the key [#text]. *)
Definition attribute (k : string) (e : xml) : option xml :=
  match e with
  | XDict d => dict_lookup d k
  | XNone | XStr _ | XList _ => None
  end.

(** The same for the element at position [p], if there is one. *)
Definition attribute_at (k : string) (p : list step) (t : xml)
  : option (option xml) :=
  option_map (attribute k) (subtree p t).

(** The positions enumerated by [as_list v], relative to [v]. *)
Definition is_member (v : xml) (p : list step) : bool :=
  match v, p with
  | XList l, [Idx i] => bool_decide (is_Some (l !! i))
  | XList _, _ => false
  | _, [] => true
  | _, _ :: _ => false
  end.

(** A group that passes the test of lines 103-106. *)
Definition is_color_group (layer : xml) : bool :=
  match layer with
  | XDict d => is_color_layer d
  | XNone | XStr _ | XList _ => false
  end.

(** The positions, relative to [layer], of the objects that
    [for element in elements] visits. *)
Definition is_layer_child (layer : xml) (p : list step) : bool :=
  match layer, p with
  | XDict d, Key key :: p' =>
      is_color_layer d && negb (is_skipped_key key) &&
      match dict_lookup d key with
      | Some elements => is_member elements p'
      | None => false
      end
  | _, _ => false
  end.

(** The same positions, relative to the value of [structure["svg"]["g"]]. *)
Definition is_group_child (layers : xml) (p : list step) : bool :=
  match layers, p with
  | XList l, Idx i :: p' =>
      match l !! i with
      | Some layer => is_layer_child layer p'
      | None => false
      end
  | XList _, _ => false
  | _, _ => is_layer_child layers p
  end.

(** The same positions, relative to [structure]: the direct children of the
    color layers. *)
Definition is_color_layer_child (structure : xml) (p : list step) : bool :=
  match p with
  | Key svg :: Key g :: p' =>
      String.eqb svg "svg" && String.eqb g "g" &&
      match subtree [Key "svg"; Key "g"] structure with
      | Some layers => is_group_child layers p'
      | None => false
      end
  | _ => false
  end.

(** [e] at position [p] of [t], [e'] at the same position of [t'], and [e']
    is what the loop body of lines 113-122 makes of [e]. *)
Definition visited (c : string) (t t' : xml) (p : list step) : Prop :=
  exists e e', subtree p t = Some e /\ subtree p t' = Some e' /\
               recolor_element c e = Ok e'.

(** The direct child groups of the root of a tree. *)
Definition direct_groups (structure : xml) : list xml :=
  match subtree [Key "svg"; Key "g"] structure with
  | Some layers => as_list layers
  | None => []
  end.

(** The texts that are empty or end with the character [e]. *)
Definition ends_with (e : ascii) (u : string) : Prop :=
  u = "" \/ exists u0, u = u0 ++ String e "".

(** The key of a [key:value] declaration: the text before its first colon. *)
Fixpoint declaration_key (e : string) : option string :=
  match e with
  | EmptyString => None
  | String c e' =>
      if Ascii.eqb c ":" then Some EmptyString
      else option_map (String c) (declaration_key e')
  end.

(** [a in s] for a character [a]. *)
Fixpoint has_char (a : ascii) (s : string) : bool :=
  match s with
  | EmptyString => false
  | String b s' => Ascii.eqb b a || has_char a s'
  end.

Definition is_fill_declaration (e : string) : bool :=
  match declaration_key e with
  | Some key => String.eqb key "fill"
  | None => false
  end.

(** Dictionaries have unique keys, at every depth. *)
Fixpoint keys_unique (d : list string) : bool :=
  match d with
  | [] => true
  | k :: d' => negb (existsb (String.eqb k) d') && keys_unique d'
  end.

Fixpoint well_formed (t : xml) : bool :=
  match t with
  | XNone | XStr _ => true
  | XDict d =>
      keys_unique (map fst d) &&
      (fix all (d : dict) : bool :=
         match d with
         | [] => true
         | (_, v) :: d' => well_formed v && all d'
         end) d
  | XList l =>
      (fix all (l : list xml) : bool :=
         match l with
         | [] => true
         | v :: l' => well_formed v && all l'
         end) l
  end.

(** [isinstance(v, list)] *)
Definition is_list (v : xml) : bool :=
  match v with
  | XList _ => true
  | XNone | XStr _ | XDict _ => false
  end.


(** ** An environment to run the class on

    [os.path] for POSIX paths, a few files, and the trees that
    [xmltodict.parse] builds for their contents. *)
Module Example.

Fixpoint basename (p : string) : string :=
  match p with
  | EmptyString => EmptyString
  | String _ p' => if has_char "/" p then basename p' else p
  end.

(** The text before the last dot and the text from it on. *)
Fixpoint rsplit_dot (p : string) : option (string * string) :=
  match p with
  | EmptyString => None
  | String c p' =>
      match rsplit_dot p' with
      | Some (root, ext) => Some (String c root, ext)
      | None => if Ascii.eqb c "." then Some (EmptyString, p) else None
      end
  end.

Fixpoint all_dots (s : string) : bool :=
  match s with
  | EmptyString => true
  | String c s' => Ascii.eqb c "." && all_dots s'
  end.

Definition splitext (p : string) : string * string :=
  match rsplit_dot p with
  | Some (root, ext) =>
      if has_char "/" ext || all_dots (basename root) then (p, EmptyString)
      else (root, ext)
  | None => (p, EmptyString)
  end.

Definition knit_svg : string :=
  "<svg><g inkscape:label='color' inkscape:groupmode='layer'><rect style='fill:#000000;fill-opacity:1'/></g></svg>".

Definition color_layer (style : string) : xml :=
  XDict [("@inkscape:label", XStr "color");
         ("@inkscape:groupmode", XStr "layer");
         ("rect", XDict [("@style", XStr style)])].

Definition knit_tree : xml :=
  XDict [("svg", XDict [("g", color_layer "fill:#000000;fill-opacity:1")])].


Definition two_groups_svg : string :=
  "<svg><g inkscape:label='color' inkscape:groupmode='layer'><rect style='fill:#ff0000;fill-opacity:1'/></g><g><rect style='fill:#ff0000;fill-opacity:1'/></g></svg>".

Definition two_groups_tree : xml :=
  XDict [("svg",
          XDict [("g",
                  XList [color_layer "fill:#ff0000;fill-opacity:1";
                         XDict [("rect",
                                 XDict [("@style",
                                         XStr "fill:#ff0000;fill-opacity:1")])]])])].

(** [two_groups_tree] recolored with ["blue"]. *)
Definition two_groups_blue : xml :=
  XDict [("svg",
          XDict [("g",
                  XList [color_layer "fill:blue;fill-opacity:1";
                         XDict [("rect",
                                 XDict [("@style",
                                         XStr "fill:#ff0000;fill-opacity:1")])]])])].

Definition no_group_svg : string := "<svg><rect style='fill:#ff0000'/></svg>".

Definition no_group_tree : xml :=
  XDict [("svg", XDict [("rect", XDict [("@style", XStr "fill:#ff0000")])])].

Definition default_svg : string := "<svg><g id='{instruction.type}'/></svg>".

Definition default_knit_tree : xml :=
  XDict [("svg", XDict [("g", XDict [("@id", XStr "knit")])])].

Definition parse (s : string) : result xml :=
  if String.eqb s knit_svg then Ok knit_tree
  else if String.eqb s two_groups_svg then Ok two_groups_tree
  else if String.eqb s no_group_svg then Ok no_group_tree
  else if String.eqb s "<svg><g id='knit'/></svg>" then Ok default_knit_tree
  else Raise ExpatError.

Definition read (path : string) : result string :=
  if String.eqb path "SVG-Instructions/knit.svg" then Ok knit_svg
  else if String.eqb path "custom/knit.svg" then Ok two_groups_svg
  else if String.eqb path "SVG-Instructions/default.svg" then Ok default_svg
  else Raise OSError.

Definition knit (color : option string) : Instruction :=
  {| type := "knit"; color := color |}.

End Example.

(** ** The remaining methods of [InstructionToSVG] *)

(** [__init__]: the state of a new object, in which nothing is loaded. *)
Definition new_InstructionToSVG : registry := ∅.

Section Serialise.

(** [xmltodict.parse] and [xmltodict.unparse]. *)
Variable parse : string -> result xml.
Variable unparse : xml -> result string.

Local Open Scope method_scope.

Definition instruction_to_svg (instruction : Instruction) : M string :=
  do* svg_dict := instruction_to_svg_dict parse instruction in
  lift (unparse svg_dict).

Definition default_instruction_to_svg (instruction : Instruction) : M string :=
  do* svg_dict := default_instruction_to_svg_dict parse instruction in
  lift (unparse svg_dict).

End Serialise.

(** ** [knittingpattern/Loader.py]

    A [Loader] holds the callable [process] and nothing else.  The callable
    is the caller's: it may raise and it may change the caller's state,
    which is the state [S] that the methods thread through. *)

Definition St (S A : Type) : Type := S -> result A * S.

Definition st_ret {S A} (a : A) : St S A := fun s => (Ok a, s).

Definition st_bind {S A B} (m : St S A) (k : A -> St S B) : St S B :=
  fun s =>
    match m s with
    | (Ok a, s') => k a s'
    | (Raise e, s') => (Raise e, s')
    end.

Definition st_lift {S A} (r : result A) : St S A := fun s => (r, s).

Declare Scope loader_scope.
Delimit Scope loader_scope with loader.
Notation "'run*' x ':=' m 'in' k" := (st_bind m (fun x => k))
  (at level 10, x name, m at level 100, k at level 200) : loader_scope.

(** [result = []] and a loop that appends [f x] for every [x]. *)
Fixpoint st_for_each {S A B} (f : A -> St S B) (l : list A) : St S (list B) :=
  match l with
  | [] => st_ret []
  | x :: l' =>
      st_bind (f x) (fun y =>
      st_bind (st_for_each f l') (fun ys =>
      st_ret (y :: ys)))
  end.

(** The default value of [process]. *)
Definition do_not_process {S J} (object : J) : St S J := st_ret object.

(** The paths that the two loops of [folder] visit, in order, for the
    triples [(root, directories, files)] that [os.walk] yields. *)
Definition walked_paths (join : string -> string -> string)
    (triples : list (string * list string * list string)) : list string :=
  flat_map (fun '(root, directories, files) =>
              map (fun file => join root file) files) triples.

Section Loader.

(** The objects that [json] builds, the values that [process] returns, the
    state of the caller, and the bytes that a URL delivers. *)
Variables J R S B : Type.

(** [self.process] *)
Variable process : J -> St S R.
(** [json.loads]; [json.load(file)] is [json.loads] of the text of the
    file. *)
Variable loads : string -> result J.
(** [open(path)] and the text of the file. *)
Variable read : string -> result string.
(** [urllib.request.urlopen(url).read()] and [bytes.decode(encoding)]. *)
Variable urlopen : string -> result B.
Variable decode : B -> string -> result string.
(** [os.walk], [os.path.join], [os.path.isfile], [os.path.isdir],
    [os.path.dirname]. *)
Variable walk : string -> list (string * list string * list string).
Variable join : string -> string -> string.
Variables isfile isdir : string -> bool.
Variable dirname : string -> string.
(** [__import__(name)] followed by [sys.modules[name].__file__]. *)
Variable module_file : string -> result string.

Local Open Scope loader_scope.

Definition Loader_object (obj : J) : St S R := process obj.

Definition Loader_string (json_string : string) : St S R :=
  run* obj := st_lift (loads json_string) in
  Loader_object obj.

(** The argument is the text of the open file. *)
Definition Loader_file (file : string) : St S R :=
  run* obj := st_lift (loads file) in
  Loader_object obj.

Definition Loader_path (path : string) : St S R :=
  run* file := st_lift (read path) in
  Loader_file file.

Definition Loader_url (url encoding : string) : St S R :=
  run* json := st_lift (urlopen url) in
  run* json := st_lift (decode json encoding) in
  Loader_string json.

Definition Loader_folder (folder : string) : St S (list R) :=
  st_for_each Loader_path (walked_paths join (walk folder)).

Definition _relative_to_absolute (module_location folder : string)
  : result string :=
  let* path :=
    if isfile module_location then Ok (dirname module_location)
    else if isdir module_location then Ok module_location
    else
      let* file := module_file module_location in
      Ok (dirname file) in
  let absolute_path := join path folder in
  Ok absolute_path.

Definition Loader_relative_folder (module folder : string)
  : St S (list R) :=
  run* folder := st_lift (_relative_to_absolute module folder) in
  Loader_folder folder.

Definition Loader_relative_file (module file : string) : St S R :=
  run* path := st_lift (_relative_to_absolute module file) in
  Loader_path path.

End Loader.

(** ** Vocabulary of the further statements *)

(** The elements on which lines 113-122 do not raise: nodes whose style is
    absent, false in [if style:], or a string. *)
Definition recolorable (element : xml) : bool :=
  match element with
  | XDict d =>
      match dict_get d "@style" with
      | XStr _ => true
      | style => negb (truthy style)
      end
  | XNone | XStr _ | XList _ => false
  end.

(** The groups on which lines 103-122 do not raise. *)
Definition layer_recolorable (layer : xml) : bool :=
  match layer with
  | XDict d =>
      negb (is_color_layer d) ||
      forallb (fun item : string * xml =>
                 is_skipped_key (fst item) ||
                 forallb recolorable (as_list (snd item))) d
  | XNone | XStr _ | XList _ => true
  end.

(** What a node is, apart from its texts and its descendants: its type, the
    keys of a node in their order, the number of items of a list. *)
Inductive kind : Type :=
| KNone
| KStr
| KDict (keys : list string)
| KList (n : nat).

Definition kind_of (v : xml) : kind :=
  match v with
  | XNone => KNone
  | XStr _ => KStr
  | XDict d => KDict (map fst d)
  | XList l => KList (List.length l)
  end.

Definition kind_at (p : list step) (t : xml) : option kind :=
  option_map kind_of (subtree p t).

(** More documents for the environment of [Example]. *)
Module Samples.

(** A color layer whose only child has neither attributes nor content. *)
Definition bare_rect_svg : string :=
  "<svg><g inkscape:label='color' inkscape:groupmode='layer'><rect/></g></svg>".

Definition bare_rect_tree : xml :=
  XDict [("svg",
          XDict [("g",
                  XDict [("@inkscape:label", XStr "color");
                         ("@inkscape:groupmode", XStr "layer");
                         ("rect", XNone)])])].

Definition parse (s : string) : result xml :=
  if String.eqb s bare_rect_svg then Ok bare_rect_tree
  else if String.eqb s "recolored" then Ok Example.two_groups_blue
  else Example.parse s.

End Samples.

(** A folder to run the loader on.  The JSON value of a file is represented
    by its text; [process] returns the value and records it in the state of
    the caller. *)
Module Folders.

Definition walk (folder : string)
  : list (string * list string * list string) :=
  if String.eqb folder "patterns" then
    [("patterns", ["sub"], ["a.json"; "b.json"]);
     ("patterns/sub", [], ["c.json"])]
  else if String.eqb folder "good" then [("good", [], ["a.json"; "c.json"])]
  else if String.eqb folder "empty" then [("empty", ["sub"], []);
                                          ("empty/sub", [], [])]
  else [].

Definition join (path file : string) : string := path ++ "/" ++ file.

Definition read (path : string) : result string :=
  if String.eqb path "patterns/a.json" then Ok "1"
  else if String.eqb path "patterns/sub/c.json" then Ok "3"
  else if String.eqb path "good/a.json" then Ok "1"
  else if String.eqb path "good/c.json" then Ok "3"
  else Raise OSError.

Definition loads (text : string) : result string := Ok text.

Definition process (obj : string) : St (list string) string :=
  fun seen => (Ok obj, obj :: seen).

End Folders.

(** Documents with text-only elements, for the environment of [Samples]. *)
Module Titled.

Definition styled_rect : xml :=
  XDict [("@style", XStr "fill:#ff0000;fill-opacity:1")].

(** A color layer that holds a title beside a styled element. *)
Definition layer_svg : string :=
  "<svg><g inkscape:label='color' inkscape:groupmode='layer'><title>Layer</title><rect style='fill:#ff0000;fill-opacity:1'/></g></svg>".

Definition layer_tree : xml :=
  XDict [("svg",
          XDict [("g",
                  XDict [("@inkscape:label", XStr "color");
                         ("@inkscape:groupmode", XStr "layer");
                         ("title", XStr "Layer");
                         ("rect", styled_rect)])])].

(** A title outside the groups, a color layer, and a group without label
    that holds a styled element and a title. *)
Definition outside_svg : string :=
  "<svg><title>Knit</title><g inkscape:label='color' inkscape:groupmode='layer'><rect style='fill:#ff0000;fill-opacity:1'/></g><g><rect style='fill:#ff0000;fill-opacity:1'/><title>Other</title></g></svg>".

Definition plain_group : xml :=
  XDict [("rect", styled_rect); ("title", XStr "Other")].

Definition outside_tree : xml :=
  XDict [("svg",
          XDict [("title", XStr "Knit");
                 ("g",
                  XList [Example.color_layer "fill:#ff0000;fill-opacity:1";
                         plain_group])])].

(** [outside_tree] recolored with ["blue"]. *)
Definition outside_blue : xml :=
  XDict [("svg",
          XDict [("title", XStr "Knit");
                 ("g",
                  XList [Example.color_layer "fill:blue;fill-opacity:1";
                         plain_group])])].

Definition parse (s : string) : result xml :=
  if String.eqb s layer_svg then Ok layer_tree
  else if String.eqb s outside_svg then Ok outside_tree
  else Samples.parse s.

End Titled.

(** * Properties *)

(** ** Loops and dictionaries *)

Section Loops.
Context {A B : Type} (f : A -> result B).

Lemma for_each_Forall2 (l : list A) (l' : list B) :
  for_each f l = Ok l' <-> Forall2 (fun x y => f x = Ok y) l l'.
Proof.
  revert l'. induction l as [|x l IH]; intros l'; simpl.
  - split.
    + intros [= <-]. constructor.
    + intros H. inversion H. reflexivity.
  - destruct (f x) as [y|e] eqn:Hx; simpl.
    + destruct (for_each f l) as [ys|e] eqn:Hl; simpl.
      * split.
        -- intros [= <-]. constructor; [assumption | now apply IH].
        -- intros H. inversion H as [|? y' ? ys' Hy Hys]; subst.
           apply IH in Hys. congruence.
      * split; [discriminate|].
        intros H. inversion H as [|? y' ? ys' Hy Hys]; subst.
        apply IH in Hys. discriminate.
    + split; [discriminate|].
      intros H. inversion H; subst. congruence.
Qed.

Lemma for_each_lookup (l : list A) (l' : list B) (i : nat) (x : A) :
  for_each f l = Ok l' -> l !! i = Some x ->
  exists y, l' !! i = Some y /\ f x = Ok y.
Proof.
  intros H Hi. apply for_each_Forall2 in H.
  destruct (Forall2_lookup_l _ _ _ _ _ H Hi) as (y & Hy & Hxy). eauto.
Qed.

Lemma for_each_lookup_None (l : list A) (l' : list B) (i : nat) :
  for_each f l = Ok l' -> l !! i = None -> l' !! i = None.
Proof.
  intros H Hi. apply for_each_Forall2 in H.
  apply Forall2_length in H.
  apply lookup_ge_None. apply lookup_ge_None in Hi. lia.
Qed.
End Loops.

Lemma for_each_id {A} (f : A -> result A) (l : list A) :
  Forall (fun x => f x = Ok x) l -> for_each f l = Ok l.
Proof.
  induction 1 as [|x l Hx _ IH]; simpl; [reflexivity|].
  now rewrite Hx, IH.
Qed.

Lemma dict_lookup_set (d : dict) (k k' : string) (v : xml) :
  dict_lookup (dict_set d k v) k' =
  if String.eqb k k' then Some v else dict_lookup d k'.
Proof.
  induction d as [|[k0 v0] d IH]; simpl.
  - reflexivity.
  - destruct (String.eqb_spec k0 k) as [->|Hk]; simpl.
    + now destruct (String.eqb k k').
    + destruct (String.eqb_spec k0 k') as [->|Hk']; [|exact IH].
      destruct (String.eqb_spec k k'); congruence.
Qed.

Lemma dict_lookup_set_ne (d : dict) (k k' : string) (v : xml) :
  k <> k' -> dict_lookup (dict_set d k v) k' = dict_lookup d k'.
Proof.
  intros Hne. rewrite dict_lookup_set.
  destruct (String.eqb k k') eqn:E; [|reflexivity].
  now apply String.eqb_eq in E.
Qed.

Lemma dict_set_same (d : dict) (k : string) (v : xml) :
  dict_lookup d k = Some v -> dict_set d k v = d.
Proof.
  induction d as [|[k0 v0] d IH]; simpl; [discriminate|].
  destruct (String.eqb k0 k).
  - now intros [= ->].
  - intros H. now rewrite IH.
Qed.

Lemma with_item_same (v x : xml) (k : string) :
  getitem v k = Ok x -> with_item v k x = v.
Proof.
  destruct v as [| |d|]; simpl; try discriminate.
  destruct (dict_lookup d k) eqn:E; [|discriminate].
  intros [= ->]. now rewrite dict_set_same.
Qed.

Lemma of_list_as_list (v : xml) : of_list v (as_list v) = v.
Proof. now destruct v. Qed.

(** ** What the loops visit and what they leave alone *)

Lemma recolor_element_inv (c : string) (e e' : xml) :
  recolor_element c e = Ok e' ->
  exists d, e = XDict d /\
    (e' = e \/
     exists s, dict_lookup d "@style" = Some (XStr s) /\
       e' = XDict (dict_set d "@style" (XStr (recolor_style c s)))).
Proof.
  destruct e as [| |d|]; simpl; try discriminate.
  intros H. exists d. split; [reflexivity|].
  unfold dict_get in H.
  destruct (dict_lookup d "@style") as [[|s|d0|l0]|] eqn:Hs; simpl in H.
  - left. congruence.
  - destruct (String.eqb s ""); simpl in H.
    + left. congruence.
    + right. exists s. split; [reflexivity|congruence].
  - destruct d0; [left; congruence | discriminate].
  - destruct l0; [left; congruence | discriminate].
  - left. congruence.
Qed.

Lemma recolor_items_lookup (c : string) (d d' : dict) (k : string) :
  for_each (recolor_item c) d = Ok d' ->
  match dict_lookup d k with
  | Some v => exists v', dict_lookup d' k = Some v' /\
                         recolor_item c (k, v) = Ok (k, v')
  | None => dict_lookup d' k = None
  end.
Proof.
  revert d'. induction d as [|[k0 v0] d IH]; intros d'; cbn [for_each].
  - now intros [= <-].
  - destruct (recolor_item c (k0, v0)) as [[k1 v1]|] eqn:H0;
      cbn [result_bind]; [|discriminate].
    destruct (for_each (recolor_item c) d) as [d1|] eqn:H1;
      cbn [result_bind]; [|discriminate].
    intros [= <-]. cbn [dict_lookup].
    assert (k1 = k0) as ->.
    { unfold recolor_item in H0. destruct (is_skipped_key k0).
      - congruence.
      - destruct (recolor_elements c v0); simpl in H0; congruence. }
    destruct (String.eqb_spec k0 k) as [->|Hk].
    + eauto.
    + now apply IH.
Qed.

Section Frame.
Variables c k : string.
Hypothesis k_skipped : is_skipped_key k = true.

Lemma recolor_element_frame (e e' : xml) (p : list step) :
  recolor_element c e = Ok e' -> p <> [] -> attribute_at k p e' = attribute_at k p e.
Proof.
  intros H Hp. apply recolor_element_inv in H.
  destruct H as (d & -> & [->|(s & Hs & ->)]); [reflexivity|].
  destruct p as [|[k0|i] p]; [congruence| |reflexivity].
  unfold attribute_at. simpl. rewrite dict_lookup_set.
  destruct (String.eqb_spec "@style" k0) as [<-|Hk]; [|reflexivity].
  rewrite Hs. now destruct p as [|[?|?] ?].
Qed.

Lemma recolor_elements_frame (v v' : xml) (p : list step) :
  recolor_elements c v = Ok v' -> is_member v p = false ->
  attribute_at k p v' = attribute_at k p v.
Proof.
  unfold recolor_elements. intros H Hp.
  destruct (for_each (recolor_element c) (as_list v)) as [l|] eqn:Hl;
    simpl in H; [|discriminate].
  injection H as <-.
  destruct v as [| | |es].
  4:{ simpl in *. destruct p as [|[k0|i] p]; try reflexivity.
      unfold attribute_at. simpl.
      destruct (es !! i) as [e|] eqn:Hi.
      - destruct (for_each_lookup _ _ _ _ _ Hl Hi) as (e' & -> & He).
        apply (recolor_element_frame e e' p He).
        intros ->. rewrite bool_decide_eq_false in Hp. apply Hp. eauto.
      - now rewrite (for_each_lookup_None _ _ _ _ Hl Hi). }
  all: cbn [as_list for_each] in Hl;
    match type of Hl with
    | context [recolor_element c ?v] =>
        destruct (recolor_element c v) as [e'|] eqn:He;
        cbn [result_bind] in Hl;
        [|discriminate]; injection Hl as <-; cbn [of_list];
        apply (recolor_element_frame _ _ p He);
        intros ->; discriminate
    end.
Qed.

Lemma recolor_layer_frame (l l' : xml) (p : list step) :
  recolor_layer c l = Ok l' -> is_layer_child l p = false ->
  attribute_at k p l' = attribute_at k p l.
Proof.
  intros H Hp.
  destruct l as [| |d|]; simpl in H; try (injection H as <-; reflexivity).
  destruct (is_color_layer d) eqn:Hd; [|injection H as <-; reflexivity].
  destruct (for_each (recolor_item c) d) as [d'|] eqn:Hl; simpl in H;
    [|discriminate].
  injection H as <-.
  destruct p as [|[k0|i] p]; [| |reflexivity].
  - unfold attribute_at. simpl.
    pose proof (recolor_items_lookup c d d' k Hl) as Hk.
    destruct (dict_lookup d k) as [v|].
    + destruct Hk as (v' & -> & Hv). unfold recolor_item in Hv.
      rewrite k_skipped in Hv. congruence.
    + now rewrite Hk.
  - unfold attribute_at. simpl.
    pose proof (recolor_items_lookup c d d' k0 Hl) as Hk.
    simpl in Hp. rewrite Hd in Hp. simpl in Hp.
    destruct (dict_lookup d k0) as [v|].
    + destruct Hk as (v' & -> & Hv). unfold recolor_item in Hv.
      destruct (is_skipped_key k0); [congruence|]. simpl in Hp.
      destruct (recolor_elements c v) as [v1|] eqn:Hv1; simpl in Hv;
        [|discriminate].
      injection Hv as <-.
      apply (recolor_elements_frame v v1 p Hv1 Hp).
    + now rewrite Hk.
Qed.

Lemma recolor_layers_frame (g : xml) (ls' : list xml) (p : list step) :
  for_each (recolor_layer c) (as_list g) = Ok ls' ->
  is_group_child g p = false ->
  attribute_at k p (of_list g ls') = attribute_at k p g.
Proof.
  intros Hl Hp.
  destruct g as [| | |ls].
  4:{ simpl in *. destruct p as [|[k0|i] p]; try reflexivity.
      unfold attribute_at. simpl.
      destruct (ls !! i) as [l|] eqn:Hi.
      - destruct (for_each_lookup _ _ _ _ _ Hl Hi) as (l' & -> & Hl').
        apply (recolor_layer_frame l l' p Hl' Hp).
      - now rewrite (for_each_lookup_None _ _ _ _ Hl Hi). }
  all: cbn [as_list for_each] in Hl;
    match type of Hl with
    | context [recolor_layer c ?v] =>
        destruct (recolor_layer c v) as [l'|] eqn:Hl';
        cbn [result_bind] in Hl;
        [|discriminate]; injection Hl as <-; cbn [of_list];
        apply (recolor_layer_frame _ _ p Hl' Hp)
    end.
Qed.

Lemma set_fills_inv (t t' : xml) :
  set_fills t c = Ok t' ->
  exists root svg g ls',
    t = XDict root /\
    dict_lookup root "svg" = Some (XDict svg) /\
    dict_lookup svg "g" = Some g /\
    for_each (recolor_layer c) (as_list g) = Ok ls' /\
    t' = XDict (dict_set root "svg"
                  (XDict (dict_set svg "g" (of_list g ls')))).
Proof.
  unfold set_fills. intros H.
  destruct t as [| |root|]; simpl in H; try discriminate.
  destruct (dict_lookup root "svg") as [svg|] eqn:Hsvg; simpl in H;
    [|discriminate].
  destruct svg as [| |svg|]; simpl in H; try discriminate.
  destruct (dict_lookup svg "g") as [g|] eqn:Hg; simpl in H;
    [|discriminate].
  destruct (for_each (recolor_layer c) (as_list g)) as [ls'|] eqn:Hl;
    simpl in H; [|discriminate].
  injection H as <-. exists root, svg, g, ls'. auto.
Qed.

Lemma set_fills_frame (t t' : xml) (p : list step) :
  set_fills t c = Ok t' -> is_color_layer_child t p = false ->
  attribute_at k p t' = attribute_at k p t.
Proof.
  intros H Hp.
  destruct (set_fills_inv t t' H)
    as (root & svg & g & ls' & -> & Hsvg & Hg & Hl & ->).
  assert (Hsvg_k : "svg" <> k) by (intros <-; discriminate).
  assert (Hg_k : "g" <> k) by (intros <-; discriminate).
  destruct p as [|[k1|i] p]; [| |reflexivity].
  { unfold attribute_at. simpl. now rewrite dict_lookup_set_ne. }
  unfold attribute_at. simpl. rewrite dict_lookup_set.
  destruct (String.eqb_spec "svg" k1) as [<-|Hk]; [|reflexivity].
  rewrite Hsvg.
  destruct p as [|[k2|i] p]; [| |reflexivity].
  { simpl. now rewrite dict_lookup_set_ne. }
  simpl. rewrite dict_lookup_set.
  destruct (String.eqb_spec "g" k2) as [<-|Hk]; [|reflexivity].
  rewrite Hg.
  apply (recolor_layers_frame g ls' p Hl).
  simpl in Hp. rewrite Hsvg, Hg in Hp. exact Hp.
Qed.
End Frame.

Section Visited.
Variable c : string.

Lemma recolor_elements_visited (v v' : xml) (p : list step) :
  recolor_elements c v = Ok v' -> is_member v p = true -> visited c v v' p.
Proof.
  unfold recolor_elements, visited. intros H Hp.
  destruct (for_each (recolor_element c) (as_list v)) as [l|] eqn:Hl;
    simpl in H; [|discriminate].
  injection H as <-.
  destruct v as [| | |es].
  4:{ simpl in *. destruct p as [|[k|i] [|? ?]]; try discriminate.
      rewrite bool_decide_eq_true in Hp. destruct Hp as [e Hi].
      destruct (for_each_lookup _ _ _ _ _ Hl Hi) as (e' & Hi' & He).
      exists e, e'. simpl. now rewrite Hi, Hi'. }
  all: destruct p; [|discriminate];
    cbn [as_list for_each] in Hl;
    match type of Hl with
    | context [recolor_element c ?v] =>
        destruct (recolor_element c v) as [e'|] eqn:He;
        cbn [result_bind] in Hl;
        [|discriminate]; injection Hl as <-; cbn [of_list];
        exists v, e'; auto
    end.
Qed.

Lemma recolor_layer_visited (l l' : xml) (p : list step) :
  recolor_layer c l = Ok l' -> is_layer_child l p = true -> visited c l l' p.
Proof.
  intros H Hp.
  destruct l as [| |d|]; try discriminate.
  destruct p as [|[k|i] p]; try discriminate.
  simpl in H, Hp.
  destruct (is_color_layer d); [|discriminate].
  destruct (for_each (recolor_item c) d) as [d'|] eqn:Hl; simpl in H;
    [|discriminate].
  injection H as <-.
  pose proof (recolor_items_lookup c d d' k Hl) as Hk.
  destruct (dict_lookup d k) as [v|] eqn:Hv;
    [|now rewrite andb_false_r in Hp].
  destruct Hk as (v' & Hv' & Hi). unfold recolor_item in Hi.
  destruct (is_skipped_key k); [discriminate|]. simpl in Hp.
  destruct (recolor_elements c v) as [v1|] eqn:Hv1; simpl in Hi;
    [|discriminate].
  injection Hi as <-.
  destruct (recolor_elements_visited v v1 p Hv1 Hp) as (e & e' & ? & ? & ?).
  exists e, e'. simpl. now rewrite Hv, Hv'.
Qed.

Lemma recolor_layers_visited (g : xml) (ls' : list xml) (p : list step) :
  for_each (recolor_layer c) (as_list g) = Ok ls' ->
  is_group_child g p = true -> visited c g (of_list g ls') p.
Proof.
  intros Hl Hp.
  destruct g as [| | |ls].
  4:{ simpl in *. destruct p as [|[k|i] p]; try discriminate.
      destruct (ls !! i) as [l|] eqn:Hi; [|discriminate].
      destruct (for_each_lookup _ _ _ _ _ Hl Hi) as (l' & Hi' & Hl').
      destruct (recolor_layer_visited l l' p Hl' Hp)
        as (e & e' & ? & ? & ?).
      exists e, e'. simpl. now rewrite Hi, Hi'. }
  all: cbn [as_list for_each] in Hl;
    match type of Hl with
    | context [recolor_layer c ?v] =>
        destruct (recolor_layer c v) as [l'|] eqn:Hl';
        cbn [result_bind] in Hl;
        [|discriminate]; injection Hl as <-; cbn [of_list];
        apply (recolor_layer_visited _ _ p Hl' Hp)
    end.
Qed.

Lemma set_fills_visited (t t' : xml) (p : list step) :
  set_fills t c = Ok t' -> is_color_layer_child t p = true ->
  visited c t t' p.
Proof.
  intros H Hp.
  destruct (set_fills_inv c t t' H)
    as (root & svg & g & ls' & -> & Hsvg & Hg & Hl & ->).
  destruct p as [|[k1|?] [|[k2|?] p]]; try discriminate.
  simpl in Hp. rewrite Hsvg, Hg in Hp.
  destruct (String.eqb_spec k1 "svg") as [->|]; [|discriminate].
  destruct (String.eqb_spec k2 "g") as [->|]; [|discriminate].
  destruct (recolor_layers_visited g ls' p Hl Hp) as (e & e' & ? & ? & ?).
  exists e, e'. simpl.
  rewrite Hsvg, Hg, dict_lookup_set. simpl.
  rewrite dict_lookup_set. simpl. auto.
Qed.
End Visited.

(** ** Style strings *)

Lemma strip_prefix_app (p s r : string) :
  strip_prefix p s = Some r <-> s = p ++ r.
Proof.
  revert s. induction p as [|a p IH]; intros s; simpl.
  - split; congruence.
  - destruct s as [|b s].
    + split; discriminate.
    + destruct (Ascii.eqb_spec a b) as [->|Hab].
      * rewrite IH. split; congruence.
      * split; [discriminate|congruence].
Qed.

Lemma declaration_key_inv (e key : string) :
  declaration_key e = Some key -> exists r, e = key ++ String ":" r.
Proof.
  revert key. induction e as [|a e IH]; intros key; simpl; [discriminate|].
  destruct (Ascii.eqb_spec a ":") as [->|Ha].
  - intros [= <-]. now exists e.
  - destruct (declaration_key e) as [k|]; simpl; [|discriminate].
    intros [= <-]. destruct (IH k eq_refl) as [r ->]. now exists r.
Qed.

(** The test of line 118 selects the declarations whose key is [fill]. *)
Lemma startswith_fill (e : string) :
  startswith e "fill:" = is_fill_declaration e.
Proof.
  unfold startswith, is_fill_declaration.
  destruct (strip_prefix "fill:" e) as [r|] eqn:Hp.
  - apply strip_prefix_app in Hp. subst e. reflexivity.
  - destruct (declaration_key e) as [key|] eqn:Hk; [|reflexivity].
    destruct (String.eqb_spec key "fill") as [->|]; [|reflexivity].
    apply declaration_key_inv in Hk. destruct Hk as [r ->].
    discriminate Hp.
Qed.

Lemma split_cons (sep : ascii) (s : string) :
  exists h t, split sep s = h :: t.
Proof.
  destruct s as [|c s]; simpl; [eauto|].
  destruct (Ascii.eqb c sep); [eauto|].
  destruct (split sep s); eauto.
Qed.

Lemma join_cons_char (sep h : string) (t : list string) (c : ascii) :
  join sep (String c h :: t) = String c (join sep (h :: t)).
Proof. now destruct t. Qed.

(** [split] followed by [join] gives the string back. *)
Lemma join_split (sep : ascii) (s : string) :
  join (String sep "") (split sep s) = s.
Proof.
  induction s as [|c s IH]; [reflexivity|].
  cbn [split]. destruct (split_cons sep s) as (h & t & Hs). rewrite Hs in *.
  destruct (Ascii.eqb_spec c sep) as [->|Hc].
  - change (join (String sep "") ("" :: h :: t))
      with (String sep (join (String sep "") (h :: t))).
    now rewrite IH.
  - now rewrite join_cons_char, IH.
Qed.

Lemma split_no_sep (sep : ascii) (s : string) :
  has_char sep s = false -> split sep s = [s].
Proof.
  induction s as [|c s IH]; [reflexivity|]. simpl.
  destruct (Ascii.eqb c sep); [discriminate|]. simpl.
  intros H. now rewrite IH.
Qed.

Lemma split_app_sep (sep : ascii) (x r : string) :
  has_char sep x = false ->
  split sep (x ++ String sep r) = x :: split sep r.
Proof.
  induction x as [|c x IH]; simpl.
  - now rewrite Ascii.eqb_refl.
  - destruct (Ascii.eqb c sep); [discriminate|]. simpl.
    intros H. now rewrite IH.
Qed.

(** [join] followed by [split] gives the pieces back when no piece contains
    the separator. *)
Lemma split_join (sep : ascii) (l : list string) :
  l <> [] -> Forall (fun x => has_char sep x = false) l ->
  split sep (join (String sep "") l) = l.
Proof.
  intros Hl H. induction H as [|x l Hx H IH]; [congruence|].
  destruct l as [|y l].
  - now apply split_no_sep.
  - change (join (String sep "") (x :: y :: l))
      with (x ++ String sep (join (String sep "") (y :: l))).
    rewrite split_app_sep by assumption. now rewrite IH.
Qed.

Lemma split_pieces (sep : ascii) (s : string) :
  Forall (fun x => has_char sep x = false) (split sep s).
Proof.
  induction s as [|c s IH]; simpl.
  - now repeat constructor.
  - destruct (Ascii.eqb c sep) eqn:Hc.
    + now constructor.
    + destruct (split sep s) as [|h t]; [now repeat constructor; simpl; rewrite Hc|].
      inversion IH; subst. constructor; [|assumption].
      simpl. now rewrite Hc.
Qed.

Lemma has_char_app (a : ascii) (s1 s2 : string) :
  has_char a (s1 ++ s2) = has_char a s1 || has_char a s2.
Proof.
  induction s1 as [|b s1 IH]; simpl; [reflexivity|].
  now rewrite IH, orb_assoc.
Qed.

Lemma recolor_style_id (c s : string) :
  Forall (fun e => is_fill_declaration e = false) (split ";" s) ->
  recolor_style c s = s.
Proof.
  intros H. unfold recolor_style.
  replace (map (recolor_declaration c) (split ";" s)) with (split ";" s).
  - apply join_split.
  - induction H as [|e l He _ IH]; [reflexivity|]. simpl.
    unfold recolor_declaration at 1. rewrite startswith_fill, He.
    now f_equal.
Qed.

(** The loop body on an element that carries a style string. *)
Lemma recolor_element_style (c : string) (d : dict) (s : string) :
  dict_lookup d "@style" = Some (XStr s) ->
  recolor_element c (XDict d) =
  Ok (XDict (dict_set d "@style" (XStr (recolor_style c s)))).
Proof.
  intros Hs. cbn [recolor_element]. unfold dict_get. rewrite Hs.
  cbn [truthy].
  destruct (String.eqb_spec s "") as [->|]; cbn [negb]; [|reflexivity].
  change (recolor_style c "") with "".
  now rewrite (dict_set_same d "@style" (XStr "")).
Qed.

(** ** Text substitution *)

Lemma length_append (s1 s2 : string) :
  String.length (s1 ++ s2) = String.length s1 + String.length s2.
Proof. induction s1 as [|c s1 IH]; simpl; [reflexivity|]. now rewrite IH. Qed.

Lemma append_assoc (s1 s2 s3 : string) : (s1 ++ s2) ++ s3 = s1 ++ s2 ++ s3.
Proof. induction s1 as [|c s1 IH]; simpl; [reflexivity|]. now rewrite IH. Qed.

Lemma contains_prefix (s old r : string) :
  strip_prefix old s = Some r -> contains s old = true.
Proof. intros H. destruct s; simpl; now rewrite H. Qed.

(** [contains] is the substring test. *)
Lemma contains_app (a old b : string) : contains (a ++ old ++ b) old = true.
Proof.
  induction a as [|c a IH].
  - apply (contains_prefix _ _ b). now apply strip_prefix_app.
  - cbn [String.append contains]. rewrite IH.
    now destruct (strip_prefix old (String c (a ++ old ++ b))).
Qed.

Lemma contains_inv (s old : string) :
  contains s old = true -> exists a b, s = a ++ old ++ b.
Proof.
  induction s as [|c s IH]; simpl.
  - destruct (strip_prefix old "") as [r|] eqn:H; [|discriminate].
    apply strip_prefix_app in H. intros _. now exists "", r.
  - destruct (strip_prefix old (String c s)) as [r|] eqn:H.
    + apply strip_prefix_app in H. intros _. now exists "", r.
    + intros Hs. destruct (IH Hs) as (a & b & ->). now exists (String c a), b.
Qed.

Lemma contains_cons (c : ascii) (s old : string) :
  contains (String c s) old = false ->
  strip_prefix old (String c s) = None /\ contains s old = false.
Proof. simpl. now destruct (strip_prefix old (String c s)). Qed.

(** A prefix of [n ++ r] is a prefix of [n] or begins with [n]. *)
Lemma strip_prefix_append (u n r r' : string) :
  strip_prefix u (n ++ r) = Some r' ->
  (exists v, n = u ++ v) \/ (exists w, u = n ++ w).
Proof.
  revert n. induction u as [|a u IH]; intros n; simpl.
  - intros _. left. now exists n.
  - destruct n as [|b n]; simpl.
    + intros _. right. now exists (String a u).
    + destruct (Ascii.eqb_spec a b) as [->|]; [|discriminate].
      intros H. destruct (IH n H) as [[v ->]|[w ->]]; [left|right]; eauto.
Qed.

Section Replace.
(** The text [old] that is searched for begins with the character [h],
    which occurs nowhere else in it, and is therefore not empty. *)
Variables (h : ascii) (tl new : string).
Hypothesis h_once : has_char h tl = false.
#[local] Abbreviation old := (String h tl).

Lemma scan_fuel (fuel1 fuel2 : nat) (s : string) :
  String.length s <= fuel1 -> String.length s <= fuel2 ->
  replace_scan fuel1 old new s = replace_scan fuel2 old new s.
Proof.
  revert fuel2 s.
  induction fuel1 as [|fuel1 IH]; intros fuel2 s H1 H2.
  - destruct s; [|simpl in H1; lia]. now destruct fuel2.
  - destruct fuel2 as [|fuel2].
    { destruct s; [|simpl in H2; lia]. reflexivity. }
    cbn [replace_scan].
    destruct (strip_prefix old s) as [r|] eqn:Hs.
    + apply strip_prefix_app in Hs. subst s.
      rewrite length_append in H1, H2. simpl in H1, H2.
      f_equal. apply IH; lia.
    + destruct s as [|c s]; [reflexivity|]. simpl in H1, H2.
      f_equal. apply IH; lia.
Qed.

Lemma replace_unfold (s : string) :
  replace s old new = replace_scan (String.length s) old new s.
Proof. reflexivity. Qed.

(** A text without occurrences is left as it is. *)
Lemma replace_absent (s : string) :
  contains s old = false -> replace s old new = s.
Proof.
  rewrite replace_unfold.
  generalize (String.length s) as fuel. intros fuel. revert s.
  induction fuel as [|fuel IH]; intros s Hs; [reflexivity|].
  cbn [replace_scan]. destruct s as [|c s]; [reflexivity|].
  apply contains_cons in Hs. destruct Hs as [-> Hs]. now rewrite IH.
Qed.

(** An occurrence cannot begin inside a text without occurrences and end
    in an occurrence that follows it. *)
Lemma strip_prefix_tail (a rest r : string) :
  strip_prefix tl (a ++ String h rest) = Some r ->
  exists r', strip_prefix tl a = Some r'.
Proof.
  revert a h_once.
  induction tl as [|t tl' IH]; intros a Hh; simpl; [eauto|].
  simpl in Hh. apply orb_false_elim in Hh. destruct Hh as [Ht Hh].
  destruct a as [|x a]; simpl.
  - rewrite Ht. discriminate.
  - destruct (Ascii.eqb t x); [|discriminate]. now apply IH.
Qed.

Lemma no_overlap (c : ascii) (a b : string) :
  contains (String c a) old = false ->
  strip_prefix old (String c a ++ old ++ b) = None.
Proof.
  intros Hc. apply contains_cons in Hc. destruct Hc as [Hc _].
  destruct (strip_prefix old (String c a ++ old ++ b)) as [r|] eqn:H;
    [|reflexivity].
  simpl in H, Hc.
  destruct (Ascii.eqb h c); [|discriminate].
  destruct (strip_prefix_tail a (tl ++ b) r H) as [r' Hr'].
  congruence.
Qed.

(** The first occurrence is replaced and the scan resumes after it. *)
Lemma replace_first (a b : string) :
  contains a old = false ->
  replace (a ++ old ++ b) old new = a ++ new ++ replace b old new.
Proof.
  rewrite !replace_unfold.
  induction a as [|c a IH]; intros Ha.
  - change ("" ++ old ++ b) with (String h (tl ++ b)).
    cbn [String.length replace_scan].
    change (String h (tl ++ b)) with (old ++ b).
    rewrite (proj2 (strip_prefix_app old (old ++ b) b) eq_refl).
    cbn [String.append]. f_equal.
    apply scan_fuel; [|lia].
    rewrite length_append. lia.
  - change (String c a ++ old ++ b) with (String c (a ++ old ++ b)).
    cbn [String.length replace_scan].
    change (String c (a ++ old ++ b)) with (String c a ++ old ++ b) at 1.
    rewrite (no_overlap c a b Ha).
    change (String c a ++ new ++ replace_scan (String.length b) old new b)
      with (String c (a ++ new ++ replace_scan (String.length b) old new b)).
    f_equal. apply IH. now apply contains_cons in Ha.
Qed.

(** When does the result contain no occurrence?  It is enough that
    [new] contains neither the first character [h] nor the last character
    [e] of [old], and contains a character [x] that [old] does not. *)
Variables (e x : ascii) (body : string).
Hypothesis old_end : old = body ++ String e "".
Hypothesis new_h : has_char h new = false.
Hypothesis new_e : has_char e new = false.
Hypothesis new_x : has_char x new = true.
Hypothesis old_x : has_char x old = false.

Lemma contains_after (n t : string) :
  has_char h n = false -> contains (n ++ t) old = contains t old.
Proof.
  induction n as [|c n IH]; [reflexivity|]. simpl.
  intros H. apply orb_false_elim in H. destruct H as [Hc Hn].
  rewrite Ascii.eqb_sym, Hc. now apply IH.
Qed.

#[local] Abbreviation ends_with_e := (ends_with e).

Lemma ends_with_e_tail (a : ascii) (u : string) :
  ends_with_e (String a u) -> ends_with_e u.
Proof.
  intros [H|[u0 H]]; [discriminate|].
  destruct u0 as [|b u0]; simpl in H; injection H as _ ->.
  - now left.
  - right. now exists u0.
Qed.

(** A prefix [u] of the result that ends with [e] and does not contain [x]
    is a prefix of the text that was scanned. *)
Lemma scan_prefix (fuel : nat) (u s r : string) :
  ends_with_e u -> has_char x u = false ->
  strip_prefix u (replace_scan fuel old new s) = Some r ->
  exists r', strip_prefix u s = Some r'.
Proof.
  revert u s r. induction fuel as [|fuel IH]; intros u s r Hu Hx H.
  { simpl in H. eauto. }
  destruct u as [|a u]; [simpl; eauto|].
  cbn [replace_scan] in H.
  destruct (strip_prefix old s) as [rest|].
  - exfalso. apply strip_prefix_append in H.
    destruct H as [[v Hv]|[w Hw]].
    + destruct Hu as [Hu|[u0 Hu]]; [discriminate|].
      rewrite Hu, append_assoc in Hv.
      rewrite Hv, has_char_app in new_e. simpl in new_e.
      rewrite Ascii.eqb_refl, orb_true_r in new_e. discriminate.
    + rewrite Hw, has_char_app, new_x in Hx. discriminate.
  - destruct s as [|c s]; [discriminate|].
    simpl in H |- *.
    destruct (Ascii.eqb a c); [|discriminate].
    apply (IH u s r); [now apply ends_with_e_tail in Hu| |assumption].
    simpl in Hx. now apply orb_false_elim in Hx.
Qed.

Lemma scan_clean (fuel : nat) (s : string) :
  String.length s <= fuel ->
  contains (replace_scan fuel old new s) old = false.
Proof.
  revert s. induction fuel as [|fuel IH]; intros s Hs.
  { destruct s; [reflexivity|simpl in Hs; lia]. }
  destruct (contains (replace_scan (S fuel) old new s) old) eqn:Hc;
    [|reflexivity].
  exfalso. cbn [replace_scan] in Hc.
  destruct (strip_prefix old s) as [rest|] eqn:Hp.
  - rewrite contains_after in Hc by assumption.
    apply strip_prefix_app in Hp. subst s.
    rewrite length_append in Hs. simpl in Hs.
    rewrite IH in Hc by lia. discriminate.
  - destruct s as [|c s]; [discriminate|]. simpl in Hs.
    cbn [contains] in Hc. rewrite IH in Hc by lia.
    destruct (strip_prefix old (String c (replace_scan fuel old new s)))
      as [r|] eqn:Hr; [|discriminate].
    assert (exists r', strip_prefix old (String c s) = Some r') as [r' Hr'].
    { apply (scan_prefix (S fuel) old (String c s) r).
      - right. now exists body.
      - assumption.
      - cbn [replace_scan]. now rewrite Hp. }
    congruence.
Qed.

Lemma replace_clean (s : string) :
  contains (replace s old new) old = false.
Proof. rewrite replace_unfold. now apply scan_clean. Qed.
End Replace.

(** * Properties of the rendering operations *)

Lemma set_fills_in_color_layer_parsed (parse : string -> result xml)
    (svg_string c : string) (structure : xml) :
  parse svg_string = Ok structure ->
  _set_fills_in_color_layer parse svg_string (Some c) = set_fills structure c.
Proof. intros H. unfold _set_fills_in_color_layer. now rewrite H. Qed.

Lemma recolor_layer_other (c : string) (layer : xml) :
  is_color_group layer = false -> recolor_layer c layer = Ok layer.
Proof.
  destruct layer as [| |d|]; simpl; try reflexivity. now intros ->.
Qed.

Lemma lookup_map {A B} (f : A -> B) (l : list A) (i : nat) :
  map f l !! i = option_map f (l !! i).
Proof.
  revert i. induction l as [|x l IH]; intros [|i]; simpl; auto.
Qed.

(** X12.  For every parsed tree whose root [svg] is a node with an entry
    [g] (one group or a list of groups) and every color that is not [None]:
    if none of these groups carries both the label [color] and the group
    mode [layer], [_set_fills_in_color_layer] returns the parsed tree
    unmodified and raises nothing. *)
Theorem no_color_layer_unchanged (parse : string -> result xml)
    (svg_string c : string) (structure svg layers : xml) :
  parse svg_string = Ok structure ->
  getitem structure "svg" = Ok svg ->
  getitem svg "g" = Ok layers ->
  existsb is_color_group (as_list layers) = false ->
  _set_fills_in_color_layer parse svg_string (Some c) = Ok structure.
Proof.
  intros Hparse Hsvg Hg Hnone.
  rewrite (set_fills_in_color_layer_parsed _ _ _ _ Hparse).
  unfold set_fills. rewrite Hsvg. cbn [result_bind]. rewrite Hg.
  cbn [result_bind].
  rewrite (for_each_id (recolor_layer c) (as_list layers)).
  - cbn [result_bind]. rewrite of_list_as_list.
    now rewrite (with_item_same svg layers "g"),
      (with_item_same structure svg "svg").
  - apply List.Forall_forall. intros l Hl. apply recolor_layer_other.
    destruct (is_color_group l) eqn:E; [|reflexivity].
    rewrite <- Hnone. symmetry. apply existsb_exists. eauto.
Qed.

(** The loop body on an element whose style attribute is the string [s]:
    the element gets the style [";".join(declarations)], where [declarations] has
    the length of [s.split(";")] and, position by position, holds
    [fill:<color>] where the declaration of [s] has the key [fill] and the
    declaration of [s] itself everywhere else (empty declarations
    included).  When the color contains no semicolon these are the
    declarations of the new style.  When no declaration of [s] has the key
    [fill], the style and the element are unchanged. *)
Theorem fill_declarations_rewritten (c : string) (d : dict) (s : string) :
  dict_lookup d "@style" = Some (XStr s) ->
  exists declarations : list string,
    recolor_element c (XDict d) =
      Ok (XDict (dict_set d "@style" (XStr (join ";" declarations)))) /\
    (forall parse svg_string structure result p,
       parse svg_string = Ok structure ->
       _set_fills_in_color_layer parse svg_string (Some c) = Ok result ->
       is_color_layer_child structure p = true ->
       subtree p structure = Some (XDict d) ->
       subtree p result =
         Some (XDict (dict_set d "@style" (XStr (join ";" declarations))))) /\
    List.length declarations = List.length (split ";" s) /\
    (forall i e, split ";" s !! i = Some e ->
       declarations !! i =
         Some (if is_fill_declaration e then "fill:" ++ c else e)) /\
    (has_char ";" c = false ->
       split ";" (join ";" declarations) = declarations) /\
    (Forall (fun e => is_fill_declaration e = false) (split ";" s) ->
       join ";" declarations = s /\
       recolor_element c (XDict d) = Ok (XDict d)).
Proof.
  intros Hs. exists (map (recolor_declaration c) (split ";" s)).
  pose proof (recolor_element_style c d s Hs) as Hel.
  unfold recolor_style in Hel.
  split; [exact Hel|]. split; [|split; [|split; [|split]]].
  - intros parse svg_string structure result p Hparse H Hp Hd.
    rewrite (set_fills_in_color_layer_parsed _ _ _ _ Hparse) in H.
    destruct (set_fills_visited c _ _ p H Hp) as (e & e' & He & He' & Hr).
    congruence.
  - apply List.length_map.
  - intros i e Hi. rewrite lookup_map, Hi. simpl.
    unfold recolor_declaration. now rewrite startswith_fill.
  - intros Hc. apply split_join.
    + destruct (split_cons ";" s) as (h & t & ->). discriminate.
    + apply List.Forall_map.
      eapply List.Forall_impl; [|apply (split_pieces ";" s)].
      intros e He. unfold recolor_declaration.
      destruct (startswith e "fill:"); [|exact He].
      rewrite has_char_app, Hc. reflexivity.
  - intros Hnone.
    pose proof (recolor_style_id c s Hnone) as Hid.
    unfold recolor_style in Hid. split; [exact Hid|].
    rewrite Hel, Hid. now rewrite (dict_set_same d "@style" (XStr s)).
Qed.

(** C10.  An element of a color layer whose style attribute is the empty
    string is returned as it is, like an element without a style
    attribute: nothing is added and the empty string stays. *)
Theorem empty_style_untouched (c : string) (d : dict) :
  dict_lookup d "@style" = Some (XStr "") ->
  recolor_element c (XDict d) = Ok (XDict d) /\
  (forall d0, dict_lookup d0 "@style" = None ->
     recolor_element c (XDict d0) = Ok (XDict d0)) /\
  (forall parse svg_string structure result p,
     parse svg_string = Ok structure ->
     _set_fills_in_color_layer parse svg_string (Some c) = Ok result ->
     is_color_layer_child structure p = true ->
     subtree p structure = Some (XDict d) ->
     subtree p result = Some (XDict d)).
Proof.
  intros Hs.
  assert (Hel : recolor_element c (XDict d) = Ok (XDict d)).
  { simpl. unfold dict_get. now rewrite Hs. }
  split; [exact Hel|]. split.
  - intros d0 H0. simpl. unfold dict_get. now rewrite H0.
  - intros parse svg_string structure result p Hparse H Hp Hd.
    rewrite (set_fills_in_color_layer_parsed _ _ _ _ Hparse) in H.
    destruct (set_fills_visited c _ _ p H Hp) as (e & e' & He & He' & Hr).
    congruence.
Qed.

Lemma dict_set_set (d : dict) (k : string) (a b : xml) :
  dict_set (dict_set d k a) k b = dict_set d k b.
Proof.
  induction d as [|[k0 v0] d IH]; simpl.
  - now rewrite String.eqb_refl.
  - destruct (String.eqb k0 k) eqn:E; simpl; rewrite E; [reflexivity|].
    now rewrite IH.
Qed.

Lemma dict_lookup_set_eq (d : dict) (k : string) (v : xml) :
  dict_lookup (dict_set d k v) k = Some v.
Proof. now rewrite dict_lookup_set, String.eqb_refl. Qed.


(** C4.  When nothing is stored under the key [default], the default
    rendering returns the empty document [{"svg": ""}] for every
    instruction, whatever its color, and so does the rendering of an
    instruction whose type has no entry; neither raises. *)
Theorem no_default_empty_document (parse : string -> result xml)
    (self : registry) (instruction : Instruction) :
  self !! "default" = None ->
  default_instruction_to_svg_dict parse instruction self
    = (Ok (XDict [("svg", XStr "")]), self) /\
  (self !! type instruction = None ->
   instruction_to_svg_dict parse instruction self
     = (Ok (XDict [("svg", XStr "")]), self)).
Proof.
  intros Hd.
  assert (H : default_instruction_to_svg_dict parse instruction self
              = (Ok (XDict [("svg", XStr "")]), self)).
  { unfold default_instruction_to_svg_dict, bind, file_content.
    now rewrite Hd. }
  split; [exact H|].
  intros Ht. unfold instruction_to_svg_dict, bind, file_content.
  now rewrite Ht.
Qed.

(** C5.  For an instruction without color whose type has an entry, the
    rendering is the parse of the stored text, untouched; rendering it
    twice gives the same tree twice. *)
Theorem null_color_returns_parse (parse : string -> result xml)
    (self : registry) (instruction : Instruction) (svg : string) :
  self !! type instruction = Some svg ->
  color instruction = None ->
  instruction_to_svg_dict parse instruction self = (parse svg, self) /\
  bind (instruction_to_svg_dict parse instruction) (fun first =>
    bind (instruction_to_svg_dict parse instruction) (fun second =>
      ret (first, second))) self
    = (result_map (fun structure => (structure, structure)) (parse svg),
       self).
Proof.
  intros Ht Hc.
  assert (H : instruction_to_svg_dict parse instruction self
              = (parse svg, self)).
  { unfold instruction_to_svg_dict, bind, file_content, lift.
    rewrite Ht. unfold _set_fills_in_color_layer. rewrite Hc.
    now destruct (parse svg). }
  split; [exact H|].
  unfold bind at 1. rewrite H.
  destruct (parse svg) as [structure|err] eqn:Hp; [|reflexivity].
  unfold bind. rewrite H. reflexivity.
Qed.

(** C8.  Loading two files whose names give the same key leaves the
    content of the second under that key, as if only the second had been
    loaded, and an instruction of that type is rendered from it. *)
Theorem last_registration_wins (parse : string -> result xml)
    (basename : string -> string) (splitext : string -> string * string)
    (read : string -> result string) (self : registry)
    (path1 path2 content1 content2 name : string)
    (instruction : Instruction) :
  fst (splitext (basename path1)) = name ->
  fst (splitext (basename path2)) = name ->
  read path1 = Ok content1 ->
  read path2 = Ok content2 ->
  type instruction = name ->
  exists self' : registry,
    bind (_process_loaded_object basename splitext read path1)
      (fun _ => _process_loaded_object basename splitext read path2) self
      = (Ok tt, self') /\
    self' = <[name := content2]> self /\
    self' !! name = Some content2 /\
    instruction_to_svg_dict parse instruction self'
      = (_set_fills_in_color_layer parse content2 (color instruction), self').
Proof.
  intros H1 H2 Hr1 Hr2 Ht.
  exists (<[name := content2]> self).
  split; [|split; [reflexivity|split]].
  - unfold _process_loaded_object, bind, lift, set_file_content.
    rewrite Hr1, Hr2, H1, H2. now rewrite insert_insert_eq.
  - apply lookup_insert_eq.
  - unfold instruction_to_svg_dict, bind, file_content, lift.
    now rewrite Ht, lookup_insert_eq.
Qed.

(** C9.  Rendering leaves [self._instruction_type_to_file_content] as it
    was: the state after [instruction_to_svg_dict] and after
    [default_instruction_to_svg_dict] is the state before, whether they
    return or raise. *)
Theorem render_keeps_registry (parse : string -> result xml)
    (self : registry) (instruction : Instruction) :
  snd (instruction_to_svg_dict parse instruction self) = self /\
  snd (default_instruction_to_svg_dict parse instruction self) = self.
Proof.
  assert (H : snd (default_instruction_to_svg_dict parse instruction self)
              = self).
  { unfold default_instruction_to_svg_dict, bind, file_content, lift, ret.
    now destruct (self !! "default"). }
  split; [|exact H].
  unfold instruction_to_svg_dict, bind, file_content.
  destruct (self !! type instruction); [reflexivity|exact H].
Qed.

(** C6 (amended).  When a text is stored under [default], the default
    rendering is [_set_fills_in_color_layer] on the text in which the
    occurrences of [{instruction.type}], scanned from left to right, are
    replaced by the type of the instruction, with the color of the
    instruction.  A text without the token is used as it is.  The result
    contains no token when the type has neither brace and has a character
    that the token has not. *)
Theorem default_substitutes_type (parse : string -> result xml)
    (self : registry) (instruction : Instruction) (default_svg : string) :
  self !! "default" = Some default_svg ->
  default_instruction_to_svg_dict parse instruction self
    = (_set_fills_in_color_layer parse
         (replace default_svg "{instruction.type}" (type instruction))
         (color instruction),
       self) /\
  (contains default_svg "{instruction.type}" = false ->
   replace default_svg "{instruction.type}" (type instruction)
     = default_svg) /\
  (forall a b,
     default_svg = a ++ "{instruction.type}" ++ b ->
     contains a "{instruction.type}" = false ->
     replace default_svg "{instruction.type}" (type instruction)
       = a ++ type instruction
           ++ replace b "{instruction.type}" (type instruction)) /\
  (forall x,
     has_char "{" (type instruction) = false ->
     has_char "}" (type instruction) = false ->
     has_char x (type instruction) = true ->
     has_char x "{instruction.type}" = false ->
     contains (replace default_svg "{instruction.type}" (type instruction))
       "{instruction.type}" = false).
Proof.
  intros Hd. split; [|split; [|split]].
  - unfold default_instruction_to_svg_dict, bind, file_content, lift.
    now rewrite Hd.
  - apply (replace_absent "{" "instruction.type}").
  - intros a b -> Ha.
    now apply (replace_first "{" "instruction.type}").
  - intros x Hopen Hclose Hx Hx'.
    now apply (replace_clean "{" "instruction.type}" (type instruction)
                 "}" x "{instruction.type").
Qed.

(** ** The operations on concrete documents *)

(** C1.  A document without any group has no color layer, yet it is not
    returned unmodified: line 99 indexes [structure["svg"]["g"]] without a
    test and raises [KeyError]. *)
Lemma no_group_raises :
  well_formed Example.no_group_tree = true /\
  Example.parse Example.no_group_svg = Ok Example.no_group_tree /\
  existsb is_color_group (direct_groups Example.no_group_tree) = false /\
  _set_fills_in_color_layer Example.parse Example.no_group_svg (Some "blue")
    = Raise KeyError.
Proof. repeat split. Qed.

Lemma no_color_layer_unchanged_witness :
  _set_fills_in_color_layer Example.parse "<svg><g id='knit'/></svg>"
    (Some "blue") = Ok Example.default_knit_tree.
Proof.
  apply (no_color_layer_unchanged Example.parse "<svg><g id='knit'/></svg>"
           "blue" Example.default_knit_tree
           (XDict [("g", XDict [("@id", XStr "knit")])])
           (XDict [("@id", XStr "knit")]));
    reflexivity.
Defined.

Lemma fill_declarations_rewritten_witness :
  exists declarations : list string,
    recolor_element "blue"
      (XDict [("@style", XStr "fill:#ff0000;;stroke:fill:;fill:")])
    = Ok (XDict [("@style", XStr (join ";" declarations))]) /\
    List.length declarations = 4 /\
    declarations !! 0 = Some "fill:blue" /\
    declarations !! 1 = Some "" /\
    declarations !! 2 = Some "stroke:fill:" /\
    declarations !! 3 = Some "fill:blue" /\
    split ";" (join ";" declarations) = declarations.
Proof.
  destruct (fill_declarations_rewritten "blue"
              [("@style", XStr "fill:#ff0000;;stroke:fill:;fill:")]
              "fill:#ff0000;;stroke:fill:;fill:" eq_refl)
    as (declarations & H1 & _ & H3 & H4 & H5 & _).
  exists declarations.
  repeat split.
  - exact H1.
  - exact H3.
  - exact (H4 0 "fill:#ff0000" eq_refl).
  - exact (H4 1 "" eq_refl).
  - exact (H4 2 "stroke:fill:" eq_refl).
  - exact (H4 3 "fill:" eq_refl).
  - exact (H5 eq_refl).
Defined.

Lemma empty_style_untouched_witness :
  recolor_element "blue" (XDict [("@id", XStr "r1"); ("@style", XStr "")])
  = Ok (XDict [("@id", XStr "r1"); ("@style", XStr "")]).
Proof.
  exact (proj1 (empty_style_untouched "blue"
                  [("@id", XStr "r1"); ("@style", XStr "")] eq_refl)).
Defined.


Lemma no_default_empty_document_witness :
  instruction_to_svg_dict Example.parse (Example.knit (Some "blue")) ∅
  = (Ok (XDict [("svg", XStr "")]), ∅).
Proof.
  apply (no_default_empty_document Example.parse ∅
           (Example.knit (Some "blue"))); reflexivity.
Defined.

Lemma null_color_returns_parse_witness :
  instruction_to_svg_dict Example.parse (Example.knit None)
    {[ "knit" := Example.knit_svg ]}
  = (Ok Example.knit_tree, {[ "knit" := Example.knit_svg ]}).
Proof.
  exact (proj1 (null_color_returns_parse Example.parse
                  {[ "knit" := Example.knit_svg ]} (Example.knit None)
                  Example.knit_svg eq_refl eq_refl)).
Defined.

Lemma last_registration_wins_witness :
  exists self' : registry,
    bind (_process_loaded_object Example.basename Example.splitext
            Example.read "SVG-Instructions/knit.svg")
      (fun _ => _process_loaded_object Example.basename Example.splitext
                  Example.read "custom/knit.svg") ∅
      = (Ok tt, self') /\
    self' = <[ "knit" := Example.two_groups_svg ]> ∅ /\
    self' !! "knit" = Some Example.two_groups_svg /\
    instruction_to_svg_dict Example.parse (Example.knit None) self'
      = (Ok Example.two_groups_tree, self').
Proof.
  exact (last_registration_wins Example.parse Example.basename
           Example.splitext Example.read ∅
           "SVG-Instructions/knit.svg" "custom/knit.svg"
           Example.knit_svg Example.two_groups_svg "knit"
           (Example.knit None) eq_refl eq_refl eq_refl eq_refl eq_refl).
Defined.

(** C6 without its restriction on the type: a token remains when the type
    is the token itself, and when the type completes a token that the text
    had in two parts. *)
Lemma token_can_remain :
  replace Example.default_svg "{instruction.type}" "{instruction.type}"
    = Example.default_svg /\
  contains Example.default_svg "{instruction.type}" = true /\
  replace "<svg><g id='{i{instruction.type}struction.type}'/></svg>"
    "{instruction.type}" "n"
    = Example.default_svg.
Proof. repeat split. Qed.

Lemma default_substitutes_type_witness :
  default_instruction_to_svg_dict Example.parse (Example.knit None)
    {[ "default" := Example.default_svg ]}
  = (Ok Example.default_knit_tree, {[ "default" := Example.default_svg ]}) /\
  contains (replace Example.default_svg "{instruction.type}" "knit")
    "{instruction.type}" = false.
Proof.
  assert (Hd : ({[ "default" := Example.default_svg ]} : registry)
                 !! "default" = Some Example.default_svg) by reflexivity.
  destruct (default_substitutes_type Example.parse
              {[ "default" := Example.default_svg ]} (Example.knit None)
              Example.default_svg Hd) as (H1 & _ & _ & H4).
  split.
  - rewrite H1. reflexivity.
  - exact (H4 "k"%char eq_refl eq_refl eq_refl eq_refl).
Defined.


(** * Further properties *)

(** ** The table of loaded files *)

(** X1.  [has_svg_for_instruction] never raises and tells which way
    [instruction_to_svg_dict] goes: on [True] the stored text of the type
    is parsed and recolored, on [False] the result is that of
    [default_instruction_to_svg_dict]. *)
Theorem has_svg_decides_rendering (parse : string -> result xml)
    (self : registry) (instruction : Instruction) :
  exists b : bool,
    has_svg_for_instruction instruction self = (Ok b, self) /\
    (b = true ->
     exists svg, self !! type instruction = Some svg /\
       instruction_to_svg_dict parse instruction self
         = (_set_fills_in_color_layer parse svg (color instruction), self)) /\
    (b = false ->
     self !! type instruction = None /\
     instruction_to_svg_dict parse instruction self
       = default_instruction_to_svg_dict parse instruction self).
Proof.
  exists (bool_decide (is_Some (self !! type instruction))).
  split; [reflexivity|].
  unfold instruction_to_svg_dict, bind, file_content, lift.
  destruct (self !! type instruction) as [svg|] eqn:Ht.
  - split; [|intros Hb; rewrite bool_decide_eq_false in Hb;
             exfalso; apply Hb; eauto].
    intros _. now exists svg.
  - split; [|now intros _].
    intros Hb. rewrite bool_decide_eq_true in Hb. now destruct Hb.
Qed.

(** X2.  Loading a file changes the rendering of the type it is named
    after, and of nothing else, unless it is [default.svg]: the rendering
    of an instruction of another type is as before when the file is not
    named [default] or when the type of the instruction has a file of its
    own. *)
Theorem load_leaves_other_types (parse : string -> result xml)
    (basename : string -> string) (splitext : string -> string * string)
    (read : string -> result string) (self : registry)
    (path content : string) (instruction : Instruction) :
  read path = Ok content ->
  type instruction <> fst (splitext (basename path)) ->
  fst (splitext (basename path)) <> "default"
    \/ is_Some (self !! type instruction) ->
  exists self' : registry,
    _process_loaded_object basename splitext read path self = (Ok tt, self') /\
    fst (instruction_to_svg_dict parse instruction self')
      = fst (instruction_to_svg_dict parse instruction self) /\
    fst (has_svg_for_instruction instruction self')
      = fst (has_svg_for_instruction instruction self).
Proof.
  intros Hread Hne Hdef.
  set (name := fst (splitext (basename path))) in *.
  exists (<[name := content]> self).
  assert (Ht : <[name := content]> self !! type instruction
               = self !! type instruction)
    by now apply lookup_insert_ne.
  split; [|split].
  - unfold _process_loaded_object, bind, lift, set_file_content.
    now rewrite Hread.
  - unfold instruction_to_svg_dict, bind, file_content, lift.
    rewrite Ht. destruct (self !! type instruction) as [svg|] eqn:Hs;
      [reflexivity|].
    destruct Hdef as [Hdef|[x Hx]]; [|discriminate].
    unfold default_instruction_to_svg_dict, bind, file_content, lift, ret.
    rewrite lookup_insert_ne by exact Hdef.
    now destruct (self !! "default").
  - unfold has_svg_for_instruction, bind, file_content, ret. simpl.
    now rewrite Ht.
Qed.

Lemma load_leaves_other_types_witness :
  exists self' : registry,
    _process_loaded_object Example.basename Example.splitext Example.read
      "SVG-Instructions/knit.svg" {[ "purl" := Example.two_groups_svg ]}
      = (Ok tt, self') /\
    fst (instruction_to_svg_dict Example.parse
           {| type := "purl"; color := Some "blue" |} self')
      = Ok Example.two_groups_blue.
Proof.
  destruct (load_leaves_other_types Example.parse Example.basename
              Example.splitext Example.read
              {[ "purl" := Example.two_groups_svg ]}
              "SVG-Instructions/knit.svg" Example.knit_svg
              {| type := "purl"; color := Some "blue" |} eq_refl)
    as (self' & H1 & H2 & _).
  - discriminate.
  - left. discriminate.
  - exists self'. split; [exact H1|]. rewrite H2. reflexivity.
Defined.


(** ** Recoloring what was recolored *)

Lemma for_each_ext2 {A B} (f : A -> result B) (l l1 : list A) :
  Forall2 (fun x y => f y = f x) l l1 -> for_each f l1 = for_each f l.
Proof.
  induction 1 as [|x y l l1 Hxy _ IH]; [reflexivity|].
  cbn [for_each]. now rewrite Hxy, IH.
Qed.

Lemma recolor_elements_single (c : string) (v : xml) :
  is_list v = false -> recolor_elements c v = recolor_element c v.
Proof.
  intros Hv. unfold recolor_elements.
  destruct v; try discriminate; cbn [as_list for_each];
    match goal with
    | |- context [recolor_element c ?v] => now destruct (recolor_element c v)
    end.
Qed.

Lemma recolor_element_dict (c : string) (e e' : xml) :
  recolor_element c e = Ok e' -> is_list e = false /\ is_list e' = false.
Proof.
  intros H. apply recolor_element_inv in H.
  now destruct H as (d & -> & [->|(s & _ & ->)]).
Qed.

Lemma recolor_items_skipped (c : string) (d d' : dict) (k : string) :
  for_each (recolor_item c) d = Ok d' -> is_skipped_key k = true ->
  dict_lookup d' k = dict_lookup d k.
Proof.
  intros H Hk. pose proof (recolor_items_lookup c d d' k H) as Hl.
  destruct (dict_lookup d k) as [v|]; [|exact Hl].
  destruct Hl as (v' & -> & Hv). unfold recolor_item in Hv.
  rewrite Hk in Hv. congruence.
Qed.

Lemma recolor_items_color_layer (c : string) (d d' : dict) :
  for_each (recolor_item c) d = Ok d' -> is_color_layer d' = is_color_layer d.
Proof.
  intros H. unfold is_color_layer, dict_get.
  now rewrite !(recolor_items_skipped c d d' _ H) by reflexivity.
Qed.

Section Twice.
Variables c1 c2 : string.
Hypothesis c1_plain : has_char ";" c1 = false.

Lemma recolor_declaration_twice (e : string) :
  recolor_declaration c2 (recolor_declaration c1 e) = recolor_declaration c2 e.
Proof.
  unfold recolor_declaration.
  destruct (startswith e "fill:") eqn:He; [reflexivity|]. now rewrite He.
Qed.

Lemma recolored_pieces (s : string) :
  Forall (fun x => has_char ";" x = false)
    (map (recolor_declaration c1) (split ";" s)).
Proof.
  apply List.Forall_map.
  eapply List.Forall_impl; [|apply (split_pieces ";" s)].
  intros e He. unfold recolor_declaration.
  destruct (startswith e "fill:"); [|exact He].
  rewrite has_char_app, c1_plain. reflexivity.
Qed.

Lemma recolor_style_twice (s : string) :
  recolor_style c2 (recolor_style c1 s) = recolor_style c2 s.
Proof.
  unfold recolor_style. rewrite split_join.
  - rewrite List.map_map. f_equal. apply List.map_ext.
    apply recolor_declaration_twice.
  - destruct (split_cons ";" s) as (h & t & ->). discriminate.
  - apply recolored_pieces.
Qed.

Lemma recolor_element_twice (e e1 : xml) :
  recolor_element c1 e = Ok e1 -> recolor_element c2 e1 = recolor_element c2 e.
Proof.
  intros H. apply recolor_element_inv in H.
  destruct H as (d & -> & [->|(s & Hs & ->)]); [reflexivity|].
  rewrite (recolor_element_style c2 d s Hs).
  rewrite (recolor_element_style c2 _ (recolor_style c1 s)
             (dict_lookup_set_eq d "@style" _)).
  now rewrite dict_set_set, recolor_style_twice.
Qed.

Lemma recolor_elements_twice (v v1 : xml) :
  recolor_elements c1 v = Ok v1 ->
  recolor_elements c2 v1 = recolor_elements c2 v.
Proof.
  intros H. destruct (is_list v) eqn:Hv.
  - destruct v as [| | |es]; try discriminate.
    unfold recolor_elements in *. cbn [as_list] in *.
    destruct (for_each (recolor_element c1) es) as [l1|] eqn:Hl;
      cbn [result_bind] in H; [|discriminate].
    injection H as <-. cbn [of_list as_list].
    rewrite (for_each_ext2 (recolor_element c2) es l1); [reflexivity|].
    apply for_each_Forall2 in Hl.
    eapply Forall2_impl; [exact Hl|].
    intros x y Hxy. now apply recolor_element_twice.
  - rewrite (recolor_elements_single c1 v Hv) in H.
    destruct (recolor_element_dict c1 v v1 H) as [_ Hv1].
    rewrite (recolor_elements_single c2 v Hv),
      (recolor_elements_single c2 v1 Hv1).
    now apply recolor_element_twice.
Qed.

Lemma recolor_item_twice (item item1 : string * xml) :
  recolor_item c1 item = Ok item1 ->
  recolor_item c2 item1 = recolor_item c2 item.
Proof.
  destruct item as [k v]. unfold recolor_item.
  destruct (is_skipped_key k) eqn:Hk.
  - intros [= <-]. now rewrite Hk.
  - destruct (recolor_elements c1 v) as [v1|] eqn:Hv; cbn [result_bind];
      [|discriminate].
    intros [= <-]. rewrite Hk.
    now rewrite (recolor_elements_twice v v1 Hv).
Qed.

Lemma recolor_layer_twice (l l1 : xml) :
  recolor_layer c1 l = Ok l1 -> recolor_layer c2 l1 = recolor_layer c2 l.
Proof.
  intros H.
  destruct l as [| |d|]; cbn [recolor_layer] in H;
    try (injection H as <-; reflexivity).
  destruct (is_color_layer d) eqn:Hd; [|injection H as <-; reflexivity].
  destruct (for_each (recolor_item c1) d) as [d1|] eqn:Hl;
    cbn [result_bind] in H; [|discriminate].
  injection H as <-. cbn [recolor_layer].
  rewrite (recolor_items_color_layer c1 d d1 Hl), Hd.
  rewrite (for_each_ext2 (recolor_item c2) d d1); [reflexivity|].
  apply for_each_Forall2 in Hl.
  eapply Forall2_impl; [exact Hl|].
  intros x y Hxy. now apply recolor_item_twice.
Qed.

Lemma recolor_layer_not_list (c : string) (l l1 : xml) :
  is_list l = false -> recolor_layer c l = Ok l1 -> is_list l1 = false.
Proof.
  destruct l as [| |d|]; try discriminate; cbn [recolor_layer];
    intros _; try (now intros [= <-]).
  destruct (is_color_layer d); [|now intros [= <-]].
  destruct (for_each (recolor_item c) d); cbn [result_bind];
    [now intros [= <-]|discriminate].
Qed.

Lemma recolor_layers_twice (g : xml) (ls1 : list xml) :
  for_each (recolor_layer c1) (as_list g) = Ok ls1 ->
  as_list (of_list g ls1) = ls1 /\
  (forall ls, List.length ls = List.length ls1 ->
     of_list (of_list g ls1) ls = of_list g ls) /\
  for_each (recolor_layer c2) ls1 = for_each (recolor_layer c2) (as_list g).
Proof.
  intros Hl.
  assert (H2 : for_each (recolor_layer c2) ls1
               = for_each (recolor_layer c2) (as_list g)).
  { apply for_each_ext2. apply for_each_Forall2 in Hl.
    eapply Forall2_impl; [exact Hl|].
    intros x y Hxy. now apply recolor_layer_twice. }
  split; [|split; [|exact H2]].
  - destruct (is_list g) eqn:Hg.
    + now destruct g.
    + assert (Hg1 : as_list g = [g]) by now destruct g.
      rewrite Hg1 in Hl. cbn [for_each] in Hl.
      destruct (recolor_layer c1 g) as [l1|] eqn:Hl1; cbn [result_bind] in Hl;
        [|discriminate].
      injection Hl as <-.
      pose proof (recolor_layer_not_list c1 g l1 Hg Hl1) as Hn.
      assert (Ho : of_list g [l1] = l1) by now destruct g.
      rewrite Ho. now destruct l1.
  - intros ls Hlen. destruct (is_list g) eqn:Hg.
    + now destruct g.
    + assert (Hg1 : as_list g = [g]) by now destruct g.
      rewrite Hg1 in Hl. cbn [for_each] in Hl.
      destruct (recolor_layer c1 g) as [l1|] eqn:Hl1; cbn [result_bind] in Hl;
        [|discriminate].
      injection Hl as <-.
      pose proof (recolor_layer_not_list c1 g l1 Hg Hl1) as Hn.
      assert (Ho : of_list g [l1] = l1) by now destruct g.
      rewrite Ho. destruct ls as [|x ls]; [discriminate|].
      now destruct g, l1.
Qed.
End Twice.


Lemma set_fills_twice (c1 c2 : string) (t t1 : xml) :
  has_char ";" c1 = false -> set_fills t c1 = Ok t1 ->
  set_fills t1 c2 = set_fills t c2.
Proof.
  intros Hc H.
  destruct (set_fills_inv c1 t t1 H)
    as (root & svg & g & ls1 & -> & Hsvg & Hg & Hl & ->).
  destruct (recolor_layers_twice c1 c2 Hc g ls1 Hl) as (Has & Hof & Hfor).
  unfold set_fills. cbn [getitem].
  rewrite Hsvg, dict_lookup_set_eq. cbn [result_bind getitem].
  rewrite Hg, dict_lookup_set_eq. cbn [result_bind].
  rewrite Has, Hfor.
  destruct (for_each (recolor_layer c2) (as_list g)) as [ls|err] eqn:Hls;
    cbn [result_bind]; [|reflexivity].
  cbn [with_item]. rewrite !dict_set_set, Hof; [reflexivity|].
  apply for_each_Forall2 in Hfor.
  symmetry. exact (Forall2_length _ _ _ Hfor).
Qed.

(** X3.  The last color wins.  When a text was recolored with a color that
    contains no semicolon, recoloring a text that parses to the result is
    recoloring the original text: with a second color the first leaves no
    trace, and with the same color nothing changes any more. *)
Theorem last_color_wins (parse : string -> result xml)
    (svg_string recolored c1 c2 : string) (structure structure1 : xml) :
  has_char ";" c1 = false ->
  parse svg_string = Ok structure ->
  _set_fills_in_color_layer parse svg_string (Some c1) = Ok structure1 ->
  parse recolored = Ok structure1 ->
  _set_fills_in_color_layer parse recolored (Some c2)
    = _set_fills_in_color_layer parse svg_string (Some c2) /\
  _set_fills_in_color_layer parse recolored (Some c1) = Ok structure1.
Proof.
  intros Hc Hparse H Hparse1.
  rewrite !(set_fills_in_color_layer_parsed _ _ _ _ Hparse) in *.
  rewrite !(set_fills_in_color_layer_parsed _ _ _ _ Hparse1).
  split.
  - now apply (set_fills_twice c1 c2).
  - rewrite (set_fills_twice c1 c1 structure structure1 Hc H). exact H.
Qed.

Lemma last_color_wins_witness :
  _set_fills_in_color_layer
    (fun s => if String.eqb s "recolored" then Ok Example.two_groups_blue
              else Example.parse s)
    "recolored" (Some "#00ff00")
  = _set_fills_in_color_layer
      (fun s => if String.eqb s "recolored" then Ok Example.two_groups_blue
                else Example.parse s)
      Example.two_groups_svg (Some "#00ff00").
Proof.
  exact (proj1 (last_color_wins
                  (fun s => if String.eqb s "recolored"
                            then Ok Example.two_groups_blue
                            else Example.parse s)
                  Example.two_groups_svg "recolored" "blue" "#00ff00"
                  Example.two_groups_tree Example.two_groups_blue
                  eq_refl eq_refl eq_refl eq_refl)).
Defined.


(** ** When the recoloring raises *)

Lemma recolor_element_raises (c : string) (e : xml) :
  recolorable e = false -> recolor_element c e = Raise AttributeError.
Proof.
  destruct e as [| |d|]; simpl; try reflexivity.
  destruct (dict_get d "@style") as [|s|d0|l0]; simpl; try discriminate.
  - now destruct d0.
  - now destruct l0.
Qed.

Lemma recolor_element_returns (c : string) (e : xml) :
  recolorable e = true -> exists e', recolor_element c e = Ok e'.
Proof.
  destruct e as [| |d|]; simpl; try discriminate.
  destruct (dict_get d "@style") as [|s|d0|l0]; simpl; eauto.
  - destruct (negb (String.eqb s "")); eauto.
  - now destruct d0; eauto.
  - now destruct l0; eauto.
Qed.

(** A loop whose body can only raise [err], and raises it exactly on the
    items that fail the test [ok]. *)
Lemma for_each_outcome {A B} (f : A -> result B) (ok : A -> bool)
    (err : exn) (l : list A) :
  (forall x, ok x = true -> exists y, f x = Ok y) ->
  (forall x, ok x = false -> f x = Raise err) ->
  if forallb ok l then exists l', for_each f l = Ok l'
  else for_each f l = Raise err.
Proof.
  intros Hok Herr. induction l as [|x l IH]; cbn [forallb for_each].
  - now exists [].
  - destruct (ok x) eqn:Hx; cbn [andb].
    + destruct (Hok x Hx) as [y ->]. cbn [result_bind].
      destruct (forallb ok l).
      * destruct IH as [l' ->]. cbn [result_bind]. eauto.
      * now rewrite IH.
    + now rewrite (Herr x Hx).
Qed.

Section Outcome.
Variable c : string.

Lemma recolor_elements_outcome (v : xml) :
  if forallb recolorable (as_list v)
  then exists v', recolor_elements c v = Ok v'
  else recolor_elements c v = Raise AttributeError.
Proof.
  unfold recolor_elements.
  pose proof (for_each_outcome (recolor_element c) recolorable AttributeError
                (as_list v) (recolor_element_returns c)
                (recolor_element_raises c)) as H.
  destruct (forallb recolorable (as_list v)).
  - destruct H as [l ->]. cbn [result_bind]. eauto.
  - now rewrite H.
Qed.

Lemma recolor_item_outcome (item : string * xml) :
  if is_skipped_key (fst item) || forallb recolorable (as_list (snd item))
  then exists item', recolor_item c item = Ok item'
  else recolor_item c item = Raise AttributeError.
Proof.
  destruct item as [k v]. unfold recolor_item. cbn [fst snd].
  destruct (is_skipped_key k); cbn [orb]; [eauto|].
  pose proof (recolor_elements_outcome v) as H.
  destruct (forallb recolorable (as_list v)).
  - destruct H as [v' ->]. cbn [result_bind]. eauto.
  - now rewrite H.
Qed.

Lemma recolor_layer_outcome (layer : xml) :
  if layer_recolorable layer
  then exists layer', recolor_layer c layer = Ok layer'
  else recolor_layer c layer = Raise AttributeError.
Proof.
  destruct layer as [| |d|]; cbn [layer_recolorable recolor_layer]; eauto.
  destruct (is_color_layer d); cbn [negb orb]; [|eauto].
  pose proof (for_each_outcome (recolor_item c)
                (fun item => is_skipped_key (fst item)
                             || forallb recolorable (as_list (snd item)))
                AttributeError d) as H.
  match type of H with
  | ?P -> ?Q -> _ =>
      assert (HP : P);
      [intros x Hx; pose proof (recolor_item_outcome x) as Hi;
       now rewrite Hx in Hi|];
      assert (HQ : Q);
      [intros x Hx; pose proof (recolor_item_outcome x) as Hi;
       now rewrite Hx in Hi|];
      specialize (H HP HQ)
  end.
  match goal with
  | |- context [forallb ?g d] => destruct (forallb g d)
  end.
  - destruct H as [d' ->]. cbn [result_bind]. eauto.
  - now rewrite H.
Qed.

Lemma set_fills_outcome (t svg layers : xml) :
  getitem t "svg" = Ok svg -> getitem svg "g" = Ok layers ->
  if forallb layer_recolorable (as_list layers)
  then exists t', set_fills t c = Ok t'
  else set_fills t c = Raise AttributeError.
Proof.
  intros Hsvg Hg. unfold set_fills. rewrite Hsvg. cbn [result_bind].
  rewrite Hg. cbn [result_bind].
  pose proof (for_each_outcome (recolor_layer c) layer_recolorable
                AttributeError (as_list layers)) as H.
  match type of H with
  | ?P -> ?Q -> _ =>
      assert (HP : P);
      [intros x Hx; pose proof (recolor_layer_outcome x) as Hi;
       now rewrite Hx in Hi|];
      assert (HQ : Q);
      [intros x Hx; pose proof (recolor_layer_outcome x) as Hi;
       now rewrite Hx in Hi|];
      specialize (H HP HQ)
  end.
  destruct (forallb layer_recolorable (as_list layers)).
  - destruct H as [ls ->]. cbn [result_bind]. eauto.
  - now rewrite H.
Qed.
End Outcome.

Lemma color_layer_child_groups (t : xml) (p : list step) :
  is_color_layer_child t p = true ->
  exists svg layers, getitem t "svg" = Ok svg /\ getitem svg "g" = Ok layers.
Proof.
  destruct p as [|[k1|?] [|[k2|?] p]]; try discriminate.
  cbn [is_color_layer_child subtree].
  destruct t as [| |root|]; try (now rewrite andb_false_r).
  cbn [getitem].
  destruct (dict_lookup root "svg") as [svg|]; [|now rewrite andb_false_r].
  destruct svg as [| |svgd|]; try (now rewrite andb_false_r).
  destruct (dict_lookup svgd "g") as [layers|] eqn:Hg;
    [|now rewrite andb_false_r].
  intros _. exists (XDict svgd), layers. cbn [getitem]. now rewrite Hg.
Qed.

(** X4.  Every direct child of a color layer must be a node whose style is
    a string or absent: if one is not (an element such as [<rect/>] parses
    to [None], an element with text only to a string), recoloring with a
    color raises [AttributeError], whatever the other elements are. *)
Theorem bare_child_raises (parse : string -> result xml)
    (svg_string c : string) (structure e : xml) (p : list step) :
  parse svg_string = Ok structure ->
  is_color_layer_child structure p = true ->
  subtree p structure = Some e ->
  recolorable e = false ->
  _set_fills_in_color_layer parse svg_string (Some c) = Raise AttributeError.
Proof.
  intros Hparse Hp He Hbad.
  rewrite (set_fills_in_color_layer_parsed _ _ _ _ Hparse).
  destruct (color_layer_child_groups structure p Hp)
    as (svg & layers & Hsvg & Hg).
  pose proof (set_fills_outcome c structure svg layers Hsvg Hg) as H.
  destruct (forallb layer_recolorable (as_list layers)); [|exact H].
  destruct H as [t' Ht'].
  destruct (set_fills_visited c _ _ p Ht' Hp) as (e0 & e' & He0 & _ & Hr).
  rewrite He in He0. injection He0 as <-.
  rewrite (recolor_element_raises c e Hbad) in Hr. discriminate.
Qed.

Lemma bare_child_raises_witness :
  _set_fills_in_color_layer Samples.parse Samples.bare_rect_svg (Some "blue")
  = Raise AttributeError.
Proof.
  exact (bare_child_raises Samples.parse Samples.bare_rect_svg "blue"
           Samples.bare_rect_tree XNone [Key "svg"; Key "g"; Key "rect"]
           eq_refl eq_refl eq_refl eq_refl).
Defined.

(** X5.  For a document whose root [svg] has groups, the color decides
    nothing about the outcome: recoloring returns when every group is
    recolorable (it is no color layer, or all the elements of its items are
    nodes whose style is a string or absent), and raises [AttributeError]
    otherwise. *)
Theorem recolor_outcome (parse : string -> result xml)
    (svg_string c : string) (structure svg layers : xml) :
  parse svg_string = Ok structure ->
  getitem structure "svg" = Ok svg ->
  getitem svg "g" = Ok layers ->
  (forallb layer_recolorable (as_list layers) = true ->
   exists result,
     _set_fills_in_color_layer parse svg_string (Some c) = Ok result) /\
  (forallb layer_recolorable (as_list layers) = false ->
   _set_fills_in_color_layer parse svg_string (Some c)
     = Raise AttributeError).
Proof.
  intros Hparse Hsvg Hg.
  rewrite (set_fills_in_color_layer_parsed _ _ _ _ Hparse).
  pose proof (set_fills_outcome c structure svg layers Hsvg Hg) as H.
  destruct (forallb layer_recolorable (as_list layers));
    split; intros; try discriminate; exact H.
Qed.

Lemma recolor_outcome_witness :
  (exists result,
     _set_fills_in_color_layer Samples.parse Example.two_groups_svg
       (Some "blue") = Ok result) /\
  _set_fills_in_color_layer Samples.parse Samples.bare_rect_svg (Some "blue")
    = Raise AttributeError.
Proof.
  split.
  - exact (proj1 (recolor_outcome Samples.parse Example.two_groups_svg "blue"
                    Example.two_groups_tree _ _ eq_refl eq_refl eq_refl)
             eq_refl).
  - exact (proj2 (recolor_outcome Samples.parse Samples.bare_rect_svg "blue"
                    Samples.bare_rect_tree _ _ eq_refl eq_refl eq_refl)
             eq_refl).
Defined.


(** ** The shape of the recolored tree *)

Lemma dict_set_keys (d : dict) (k : string) (v0 v : xml) :
  dict_lookup d k = Some v0 -> map fst (dict_set d k v) = map fst d.
Proof.
  induction d as [|[k0 x] d IH]; simpl; [discriminate|].
  destruct (String.eqb k0 k); [reflexivity|].
  intros H. simpl. now rewrite IH.
Qed.

Lemma recolor_items_keys (c : string) (d d' : dict) :
  for_each (recolor_item c) d = Ok d' -> map fst d' = map fst d.
Proof.
  revert d'. induction d as [|[k v] d IH]; intros d'; cbn [for_each].
  - now intros [= <-].
  - destruct (recolor_item c (k, v)) as [[k1 v1]|] eqn:H0;
      cbn [result_bind]; [|discriminate].
    destruct (for_each (recolor_item c) d) as [d1|] eqn:H1;
      cbn [result_bind]; [|discriminate].
    intros [= <-]. simpl. rewrite (IH d1 eq_refl). f_equal.
    unfold recolor_item in H0. destruct (is_skipped_key k).
    + congruence.
    + destruct (recolor_elements c v); simpl in H0; congruence.
Qed.

Section Shape.
Variable c : string.

Lemma recolor_element_shape (e e' : xml) (p : list step) :
  recolor_element c e = Ok e' -> kind_at p e' = kind_at p e.
Proof.
  intros H. apply recolor_element_inv in H.
  destruct H as (d & -> & [->|(s & Hs & ->)]); [reflexivity|].
  unfold kind_at. destruct p as [|[k|i] p]; [| |reflexivity].
  - simpl. now rewrite (dict_set_keys d "@style" (XStr s)).
  - simpl. rewrite dict_lookup_set.
    destruct (String.eqb_spec "@style" k) as [<-|Hk]; [|reflexivity].
    rewrite Hs. now destruct p as [|[?|?] ?].
Qed.

Lemma recolor_elements_shape (v v' : xml) (p : list step) :
  recolor_elements c v = Ok v' -> kind_at p v' = kind_at p v.
Proof.
  intros H. destruct (is_list v) eqn:Hv.
  - destruct v as [| | |es]; try discriminate.
    unfold recolor_elements in H. cbn [as_list] in H.
    destruct (for_each (recolor_element c) es) as [l|] eqn:Hl;
      cbn [result_bind] in H; [|discriminate].
    injection H as <-. cbn [of_list]. unfold kind_at.
    destruct p as [|[k|i] p]; [|reflexivity|].
    + simpl. apply for_each_Forall2 in Hl.
      now rewrite (Forall2_length _ _ _ Hl).
    + simpl. destruct (es !! i) as [e|] eqn:Hi.
      * destruct (for_each_lookup _ _ _ _ _ Hl Hi) as (e' & -> & He).
        apply (recolor_element_shape e e' p He).
      * now rewrite (for_each_lookup_None _ _ _ _ Hl Hi).
  - rewrite (recolor_elements_single c v Hv) in H.
    now apply recolor_element_shape.
Qed.

Lemma recolor_layer_shape (l l' : xml) (p : list step) :
  recolor_layer c l = Ok l' -> kind_at p l' = kind_at p l.
Proof.
  intros H.
  destruct l as [| |d|]; cbn [recolor_layer] in H;
    try (injection H as <-; reflexivity).
  destruct (is_color_layer d); [|injection H as <-; reflexivity].
  destruct (for_each (recolor_item c) d) as [d'|] eqn:Hl;
    cbn [result_bind] in H; [|discriminate].
  injection H as <-. unfold kind_at.
  destruct p as [|[k|i] p]; [| |reflexivity].
  - simpl. now rewrite (recolor_items_keys c d d' Hl).
  - simpl. pose proof (recolor_items_lookup c d d' k Hl) as Hk.
    destruct (dict_lookup d k) as [v|].
    + destruct Hk as (v' & -> & Hv). unfold recolor_item in Hv.
      destruct (is_skipped_key k); [congruence|].
      destruct (recolor_elements c v) as [v1|] eqn:Hv1;
        cbn [result_bind] in Hv; [|discriminate].
      injection Hv as <-.
      apply (recolor_elements_shape v v1 p Hv1).
    + now rewrite Hk.
Qed.

Lemma recolor_layers_shape (g : xml) (ls' : list xml) (p : list step) :
  for_each (recolor_layer c) (as_list g) = Ok ls' ->
  kind_at p (of_list g ls') = kind_at p g.
Proof.
  intros Hl. destruct (is_list g) eqn:Hg.
  - destruct g as [| | |ls]; try discriminate.
    cbn [as_list of_list] in *. unfold kind_at.
    destruct p as [|[k|i] p]; [|reflexivity|].
    + simpl. apply for_each_Forall2 in Hl.
      now rewrite (Forall2_length _ _ _ Hl).
    + simpl. destruct (ls !! i) as [l|] eqn:Hi.
      * destruct (for_each_lookup _ _ _ _ _ Hl Hi) as (l' & -> & Hl').
        apply (recolor_layer_shape l l' p Hl').
      * now rewrite (for_each_lookup_None _ _ _ _ Hl Hi).
  - assert (Hg1 : as_list g = [g]) by now destruct g.
    rewrite Hg1 in Hl. cbn [for_each] in Hl.
    destruct (recolor_layer c g) as [l1|] eqn:Hl1; cbn [result_bind] in Hl;
      [|discriminate].
    injection Hl as <-.
    assert (Ho : of_list g [l1] = l1) by now destruct g.
    rewrite Ho. now apply recolor_layer_shape.
Qed.

Lemma set_fills_shape (t t' : xml) (p : list step) :
  set_fills t c = Ok t' -> kind_at p t' = kind_at p t.
Proof.
  intros H.
  destruct (set_fills_inv c t t' H)
    as (root & svg & g & ls' & -> & Hsvg & Hg & Hl & ->).
  unfold kind_at.
  destruct p as [|[k1|i] p]; [| |reflexivity].
  { simpl. now rewrite (dict_set_keys root "svg" (XDict svg)). }
  simpl. rewrite dict_lookup_set.
  destruct (String.eqb_spec "svg" k1) as [<-|Hk]; [|reflexivity].
  rewrite Hsvg.
  destruct p as [|[k2|i] p]; [| |reflexivity].
  { simpl. now rewrite (dict_set_keys svg "g" g). }
  simpl. rewrite dict_lookup_set.
  destruct (String.eqb_spec "g" k2) as [<-|Hk]; [|reflexivity].
  rewrite Hg. apply (recolor_layers_shape g ls' p Hl).
Qed.
End Shape.

(** X6.  Recoloring keeps the shape of the document: at every position the
    result has what the parsed tree has there, a node with the same keys in
    the same order, a list of the same length, a string, or nothing.  No
    element, attribute or text is added, removed or moved; in particular no
    style attribute is ever added. *)
Theorem recolor_keeps_shape (parse : string -> result xml)
    (svg_string c : string) (structure result : xml) :
  parse svg_string = Ok structure ->
  _set_fills_in_color_layer parse svg_string (Some c) = Ok result ->
  forall p, kind_at p result = kind_at p structure.
Proof.
  intros Hparse H p.
  rewrite (set_fills_in_color_layer_parsed _ _ _ _ Hparse) in H.
  now apply (set_fills_shape c).
Qed.

Lemma recolor_keeps_shape_witness :
  kind_at [Key "svg"; Key "g"; Idx 0] Example.two_groups_blue
  = Some (KDict ["@inkscape:label"; "@inkscape:groupmode"; "rect"]).
Proof.
  rewrite (recolor_keeps_shape Example.parse Example.two_groups_svg "blue"
             Example.two_groups_tree Example.two_groups_blue
             eq_refl eq_refl).
  reflexivity.
Defined.


(** ** The loader *)

Lemma st_for_each_app {S A B} (f : A -> St S B) (l1 l2 : list A) (s : S) :
  st_for_each f (l1 ++ l2) s =
  match st_for_each f l1 s with
  | (Ok r1, s1) =>
      match st_for_each f l2 s1 with
      | (Ok r2, s2) => (Ok (r1 ++ r2)%list, s2)
      | (Raise e, s2) => (Raise e, s2)
      end
  | (Raise e, s1) => (Raise e, s1)
  end.
Proof.
  revert s. induction l1 as [|x l1 IH]; intros s.
  - simpl. unfold st_ret.
    now destruct (st_for_each f l2 s) as [[r2|e] s2].
  - cbn [app st_for_each]. unfold st_bind, st_ret.
    destruct (f x s) as [[y|e] s0]; [|reflexivity].
    rewrite IH.
    destruct (st_for_each f l1 s0) as [[r1|e] s1]; [|reflexivity].
    destruct (st_for_each f l2 s1) as [[r2|e] s2]; reflexivity.
Qed.


Lemma st_for_each_ext {S A B} (f g : A -> St S B) (l : list A) (s : S) :
  (forall x s, f x s = g x s) -> st_for_each f l s = st_for_each g l s.
Proof.
  intros Hfg. revert s. induction l as [|x l IH]; intros s; [reflexivity|].
  cbn [st_for_each]. unfold st_bind, st_ret. rewrite Hfg.
  destruct (g x s) as [[y|e] s0]; [|reflexivity].
  now rewrite IH.
Qed.

(** A loop whose body does not touch the state. *)
Lemma st_for_each_pure {S A B} (f : A -> result B) (l : list A) (s : S) :
  st_for_each (fun x => st_lift (f x)) l s = (for_each f l, s).
Proof.
  induction l as [|x l IH]; [reflexivity|].
  cbn [st_for_each for_each]. unfold st_bind, st_lift, st_ret.
  destruct (f x) as [y|e]; [|reflexivity].
  unfold st_lift in IH. rewrite IH. cbn [result_bind].
  now destruct (for_each f l).
Qed.

Section LoaderProperties.
Variables J R S : Type.
Variable process : J -> St S R.
Variable loads : string -> result J.
Variable read : string -> result string.
Variable walk : string -> list (string * list string * list string).
Variable join : string -> string -> string.

(** X7.  [path] calls [process] on nothing but the value of a file that
    could be read and decoded: when the file cannot be read, or its text is
    not JSON, the error is raised and the state of the caller is as
    before. *)
Theorem path_fails_before_process (path : string) (e : exn) (s : S) :
  read path = Raise e
    \/ (exists file, read path = Ok file /\ loads file = Raise e) ->
  Loader_path J R S process loads read path s = (Raise e, s).
Proof.
  unfold Loader_path, Loader_file, st_bind, st_lift.
  intros [->|(file & -> & ->)]; reflexivity.
Qed.

(** X8.  [folder] stops at the first file on which [path] raises: the
    error is raised, the state is what the files before it and the failed
    call made of it, no file after it is loaded, and no list is
    returned. *)
Theorem folder_first_failure (folder : string) (before after : list string)
    (path : string) (rs : list R) (e : exn) (s s1 s2 : S) :
  walked_paths join (walk folder) = (before ++ path :: after)%list ->
  st_for_each (Loader_path J R S process loads read) before s = (Ok rs, s1) ->
  Loader_path J R S process loads read path s1 = (Raise e, s2) ->
  Loader_folder J R S process loads read walk join folder s = (Raise e, s2).
Proof.
  intros Hw Hb Hp. unfold Loader_folder.
  rewrite Hw, st_for_each_app, Hb.
  cbn [st_for_each]. unfold st_bind. now rewrite Hp.
Qed.

End LoaderProperties.

Section DefaultLoader.
Variables J S : Type.
Variable loads : string -> result J.
Variable read : string -> result string.
Variable walk : string -> list (string * list string * list string).
Variable join : string -> string -> string.

(** X10.  A loader that was given no [process] returns from [folder] the
    JSON values of the files, in the order of the walk, and does not touch
    the state: it returns [rs] exactly when every file can be read and
    decoded and [rs] lists the values. *)
Theorem default_loader_folder (folder : string) (s : S) :
  Loader_folder J J S do_not_process loads read walk join folder s
    = (for_each (fun path => let* file := read path in loads file)
         (walked_paths join (walk folder)), s) /\
  forall rs : list J,
    Loader_folder J J S do_not_process loads read walk join folder s
      = (Ok rs, s) <->
    Forall2 (fun path r => exists file, read path = Ok file /\ loads file = Ok r)
      (walked_paths join (walk folder)) rs.
Proof.
  assert (H : Loader_folder J J S do_not_process loads read walk join folder s
              = (for_each (fun path => let* file := read path in loads file)
                   (walked_paths join (walk folder)), s)).
  { unfold Loader_folder. rewrite <- st_for_each_pure.
    apply st_for_each_ext. intros path s0.
    unfold Loader_path, Loader_file, Loader_object, do_not_process,
      st_bind, st_lift, st_ret.
    destruct (read path) as [file|]; [|reflexivity]. cbn [result_bind].
    now destruct (loads file). }
  split; [exact H|].
  intros rs. rewrite H. split.
  - intros [= Hrs]. apply for_each_Forall2 in Hrs.
    eapply Forall2_impl; [exact Hrs|].
    intros path r Hr. cbn beta in Hr.
    destruct (read path) as [file|]; [|discriminate]. eauto.
  - intros Hrs. f_equal. apply for_each_Forall2.
    eapply Forall2_impl; [exact Hrs|].
    intros path r (file & -> & Hr). exact Hr.
Qed.
End DefaultLoader.


Lemma path_fails_before_process_witness :
  Loader_path string string (list string) Folders.process Folders.loads
    Folders.read "patterns/b.json" ["1"]
  = (Raise OSError, ["1"]).
Proof.
  apply (path_fails_before_process string string (list string)
           Folders.process Folders.loads Folders.read "patterns/b.json"
           OSError ["1"]).
  left. reflexivity.
Defined.

Lemma folder_first_failure_witness :
  Loader_folder string string (list string) Folders.process Folders.loads
    Folders.read Folders.walk Folders.join "patterns" []
  = (Raise OSError, ["1"]).
Proof.
  apply (folder_first_failure string string (list string) Folders.process
           Folders.loads Folders.read Folders.walk Folders.join "patterns"
           ["patterns/a.json"] ["patterns/sub/c.json"] "patterns/b.json"
           ["1"] OSError [] ["1"] ["1"]);
    reflexivity.
Defined.


Lemma default_loader_folder_witness :
  Loader_folder string string (list string) do_not_process Folders.loads
    Folders.read Folders.walk Folders.join "good" []
  = (Ok ["1"; "3"], []).
Proof.
  apply (proj2 (default_loader_folder string (list string) Folders.loads
                  Folders.read Folders.walk Folders.join "good" [])
           ["1"; "3"]).
  repeat constructor; eexists; split; reflexivity.
Defined.


(** ** What loading keeps *)

(** X11.  Loading a file never removes a type: whatever happens, every key
    that had a text has one afterwards, the keys other than the name of the
    file keep their text, and a file that cannot be read changes
    nothing. *)
Theorem load_keeps_registered (basename : string -> string)
    (splitext : string -> string * string) (read : string -> result string)
    (self : registry) (path key : string) :
  is_Some (self !! key) ->
  let self' :=
    snd (_process_loaded_object basename splitext read path self) in
  is_Some (self' !! key) /\
  (key <> fst (splitext (basename path)) -> self' !! key = self !! key) /\
  (forall e, read path = Raise e -> self' = self).
Proof.
  intros Hkey. unfold _process_loaded_object, bind, lift, set_file_content.
  destruct (read path) as [content|e]; cbn [snd].
  - split; [|split].
    + destruct (decide (fst (splitext (basename path)) = key)) as [->|Hne].
      * rewrite lookup_insert_eq. eauto.
      * now rewrite lookup_insert_ne.
    + intros Hne. now rewrite lookup_insert_ne.
    + discriminate.
  - auto.
Qed.

Lemma load_keeps_registered_witness :
  is_Some (snd (_process_loaded_object Example.basename Example.splitext
                  Example.read "SVG-Instructions/knit.svg"
                  {[ "purl" := Example.two_groups_svg ]}) !! "purl").
Proof.
  refine (proj1 (load_keeps_registered Example.basename Example.splitext
                   Example.read {[ "purl" := Example.two_groups_svg ]}
                   "SVG-Instructions/knit.svg" "purl" _)).
  exists Example.two_groups_svg. reflexivity.
Defined.


(** ** What lies outside the color layers *)

Section Texts.
Variable c : string.

Lemma recolor_element_text (e e' : xml) (p : list step) (s : string) :
  recolor_element c e = Ok e' -> p <> [Key "@style"] ->
  subtree p e = Some (XStr s) -> subtree p e' = Some (XStr s).
Proof.
  intros H Hp. apply recolor_element_inv in H.
  destruct H as (d & -> & [->|(s0 & Hs & ->)]); [auto|].
  destruct p as [|[k|i] p]; [discriminate| |discriminate].
  simpl. rewrite dict_lookup_set.
  destruct (String.eqb_spec "@style" k) as [<-|Hk]; [|auto].
  rewrite Hs. destruct p as [|[?|?] ?]; [congruence|discriminate..].
Qed.

Lemma recolor_elements_text (v v' : xml) (p : list step) (s : string) :
  recolor_elements c v = Ok v' ->
  (forall q, p = (q ++ [Key "@style"])%list -> is_member v q = false) ->
  subtree p v = Some (XStr s) -> subtree p v' = Some (XStr s).
Proof.
  intros H Hp. destruct (is_list v) eqn:Hv.
  - destruct v as [| | |es]; try discriminate.
    unfold recolor_elements in H. cbn [as_list] in H.
    destruct (for_each (recolor_element c) es) as [l|] eqn:Hl;
      cbn [result_bind] in H; [|discriminate].
    injection H as <-. cbn [of_list].
    destruct p as [|[k|i] p]; [discriminate|discriminate|].
    simpl. destruct (es !! i) as [e|] eqn:Hi; [|discriminate].
    destruct (for_each_lookup _ _ _ _ _ Hl Hi) as (e' & -> & He).
    apply (recolor_element_text e e' p s He).
    intros ->. specialize (Hp [Idx i] eq_refl). simpl in Hp.
    rewrite bool_decide_eq_false in Hp. apply Hp. eauto.
  - rewrite (recolor_elements_single c v Hv) in H.
    apply (recolor_element_text v v' p s H).
    intros ->. specialize (Hp [] eq_refl). now destruct v.
Qed.

Lemma recolor_layer_text (l l' : xml) (p : list step) (s : string) :
  recolor_layer c l = Ok l' ->
  (forall q, p = (q ++ [Key "@style"])%list -> is_layer_child l q = false) ->
  subtree p l = Some (XStr s) -> subtree p l' = Some (XStr s).
Proof.
  intros H Hp.
  destruct l as [| |d|]; cbn [recolor_layer] in H;
    try (injection H as <-; auto).
  destruct (is_color_layer d) eqn:Hd; [|injection H as <-; auto].
  destruct (for_each (recolor_item c) d) as [d'|] eqn:Hl;
    cbn [result_bind] in H; [|discriminate].
  injection H as <-.
  destruct p as [|[k|i] p]; [discriminate| |discriminate].
  simpl. pose proof (recolor_items_lookup c d d' k Hl) as Hk.
  destruct (dict_lookup d k) as [v|] eqn:Hv; [|discriminate].
  destruct Hk as (v' & -> & Hi). unfold recolor_item in Hi.
  destruct (is_skipped_key k) eqn:Hsk; [now injection Hi as <-|].
  destruct (recolor_elements c v) as [v1|] eqn:Hv1; cbn [result_bind] in Hi;
    [|discriminate].
  injection Hi as <-.
  apply (recolor_elements_text v v1 p s Hv1).
  intros q ->. specialize (Hp (Key k :: q) eq_refl).
  simpl in Hp. now rewrite Hd, Hsk, Hv in Hp.
Qed.

Lemma recolor_layers_text (g : xml) (ls' : list xml) (p : list step)
    (s : string) :
  for_each (recolor_layer c) (as_list g) = Ok ls' ->
  (forall q, p = (q ++ [Key "@style"])%list -> is_group_child g q = false) ->
  subtree p g = Some (XStr s) -> subtree p (of_list g ls') = Some (XStr s).
Proof.
  intros Hl Hp. destruct (is_list g) eqn:Hg.
  - destruct g as [| | |ls]; try discriminate.
    cbn [as_list of_list] in *.
    destruct p as [|[k|i] p]; [discriminate|discriminate|].
    simpl. destruct (ls !! i) as [l|] eqn:Hi; [|discriminate].
    destruct (for_each_lookup _ _ _ _ _ Hl Hi) as (l' & -> & Hl').
    apply (recolor_layer_text l l' p s Hl').
    intros q ->. specialize (Hp (Idx i :: q) eq_refl).
    simpl in Hp. now rewrite Hi in Hp.
  - assert (Hg1 : as_list g = [g]) by now destruct g.
    rewrite Hg1 in Hl. cbn [for_each] in Hl.
    destruct (recolor_layer c g) as [l1|] eqn:Hl1; cbn [result_bind] in Hl;
      [|discriminate].
    injection Hl as <-.
    assert (Ho : of_list g [l1] = l1) by now destruct g.
    rewrite Ho. apply (recolor_layer_text g l1 p s Hl1).
    intros q Hq. specialize (Hp q Hq). now destruct g.
Qed.

Lemma set_fills_text (t t' : xml) (p : list step) (s : string) :
  set_fills t c = Ok t' ->
  (forall q, p = (q ++ [Key "@style"])%list ->
     is_color_layer_child t q = false) ->
  subtree p t = Some (XStr s) -> subtree p t' = Some (XStr s).
Proof.
  intros H Hp.
  destruct (set_fills_inv c t t' H)
    as (root & svg & g & ls' & -> & Hsvg & Hg & Hl & ->).
  destruct p as [|[k1|i] p]; [discriminate| |discriminate].
  simpl. rewrite dict_lookup_set.
  destruct (String.eqb_spec "svg" k1) as [<-|Hk]; [|auto].
  rewrite Hsvg.
  destruct p as [|[k2|i] p]; [discriminate| |discriminate].
  simpl. rewrite dict_lookup_set.
  destruct (String.eqb_spec "g" k2) as [<-|Hk]; [|auto].
  rewrite Hg. apply (recolor_layers_text g ls' p s Hl).
  intros q ->. specialize (Hp (Key "svg" :: Key "g" :: q) eq_refl).
  simpl in Hp. now rewrite Hsvg, Hg in Hp.
Qed.

(** The entries beside [svg] and beside [g] are returned whole. *)
Lemma set_fills_beside (t t' : xml) (k : string) (p : list step) :
  set_fills t c = Ok t' ->
  (k <> "svg" -> subtree (Key k :: p) t' = subtree (Key k :: p) t) /\
  (k <> "g" ->
   subtree (Key "svg" :: Key k :: p) t' = subtree (Key "svg" :: Key k :: p) t).
Proof.
  intros H.
  destruct (set_fills_inv c t t' H)
    as (root & svg & g & ls' & -> & Hsvg & Hg & Hl & ->).
  split; intros Hk.
  - simpl. rewrite dict_lookup_set_ne by congruence. reflexivity.
  - simpl. rewrite dict_lookup_set_eq, Hsvg. simpl.
    rewrite dict_lookup_set_ne by congruence. reflexivity.
Qed.

(** The groups that are no color layers are returned whole. *)
Lemma set_fills_other_group (t t' layer : xml) :
  set_fills t c = Ok t' -> is_color_group layer = false ->
  (is_list layer = false ->
   subtree [Key "svg"; Key "g"] t = Some layer ->
   subtree [Key "svg"; Key "g"] t' = Some layer) /\
  (forall i,
     subtree [Key "svg"; Key "g"; Idx i] t = Some layer ->
     subtree [Key "svg"; Key "g"; Idx i] t' = Some layer).
Proof.
  intros H Hlayer.
  destruct (set_fills_inv c t t' H)
    as (root & svg & g & ls' & -> & Hsvg & Hg & Hl & ->).
  simpl. rewrite !dict_lookup_set_eq, Hsvg. simpl. rewrite Hg.
  split.
  - intros Hnl [= ->].
    assert (Hg1 : as_list layer = [layer]) by now destruct layer.
    rewrite Hg1 in Hl. cbn [for_each] in Hl.
    rewrite (recolor_layer_other c layer Hlayer) in Hl.
    cbn [result_bind] in Hl. injection Hl as <-.
    now destruct layer.
  - intros i Hi.
    destruct g as [| | |ls]; try discriminate.
    cbn [as_list of_list] in *.
    destruct (ls !! i) as [l|] eqn:Hli; [|discriminate].
    injection Hi as ->.
    destruct (for_each_lookup _ _ _ _ _ Hl Hli) as (l' & -> & Hl').
    rewrite (recolor_layer_other c layer Hlayer) in Hl'. congruence.
Qed.
End Texts.

(** C2.  When [_set_fills_in_color_layer] returns, the result is the parsed
    tree except for the style attributes of the direct children of color
    layers:
    - every element that is not a direct child of a color layer has the
      style attribute it had, and every one of its attributes and its text;
    - the direct children of color layers differ in their style attribute
      only;
    - at every position the result has what the parsed tree has there: a
      node with the same keys in the same order, a list of the same length,
      a string, or nothing;
    - every string of the parsed tree, an attribute value or the text of an
      element, is at its position in the result, unless it is the style
      attribute of a direct child of a color layer;
    - what stands beside [svg], what stands beside the groups in [svg], and
      every group that is no color layer, is returned whole. *)
Theorem recolor_scoped (parse : string -> result xml)
    (svg_string c : string) (structure result : xml) :
  parse svg_string = Ok structure ->
  _set_fills_in_color_layer parse svg_string (Some c) = Ok result ->
  (forall p, is_color_layer_child structure p = false ->
     attribute_at "@style" p result = attribute_at "@style" p structure) /\
  (forall p k, is_color_layer_child structure p = false ->
     is_skipped_key k = true ->
     attribute_at k p result = attribute_at k p structure) /\
  (forall p k, is_color_layer_child structure p = true ->
     k <> "@style" ->
     attribute_at k p result = attribute_at k p structure) /\
  (forall p, kind_at p result = kind_at p structure) /\
  (forall p s,
     subtree p structure = Some (XStr s) ->
     (forall q, p = (q ++ [Key "@style"])%list ->
        is_color_layer_child structure q = false) ->
     subtree p result = Some (XStr s)) /\
  (forall k p, k <> "svg" ->
     subtree (Key k :: p) result = subtree (Key k :: p) structure) /\
  (forall k p, k <> "g" ->
     subtree (Key "svg" :: Key k :: p) result
       = subtree (Key "svg" :: Key k :: p) structure) /\
  (forall layer, is_color_group layer = false -> is_list layer = false ->
     subtree [Key "svg"; Key "g"] structure = Some layer ->
     subtree [Key "svg"; Key "g"] result = Some layer) /\
  (forall layer i, is_color_group layer = false ->
     subtree [Key "svg"; Key "g"; Idx i] structure = Some layer ->
     subtree [Key "svg"; Key "g"; Idx i] result = Some layer).
Proof.
  intros Hparse H.
  rewrite (set_fills_in_color_layer_parsed _ _ _ _ Hparse) in H.
  repeat apply conj.
  - intros p Hp. now apply (set_fills_frame c "@style").
  - intros p k Hp Hk. now apply (set_fills_frame c k).
  - intros p k Hp Hk.
    destruct (set_fills_visited c _ _ p H Hp) as (e & e' & He & He' & Hr).
    unfold attribute_at. rewrite He, He'. simpl. f_equal.
    apply recolor_element_inv in Hr.
    destruct Hr as (d & -> & [->|(s & _ & ->)]); [reflexivity|].
    simpl. now apply dict_lookup_set_ne.
  - intros p. now apply (set_fills_shape c).
  - intros p s Hs Hp. now apply (set_fills_text c structure).
  - intros k p Hk. now apply (set_fills_beside c structure result k p H).
  - intros k p Hk. now apply (set_fills_beside c structure result k p H).
  - intros layer Hl Hnl.
    now apply (set_fills_other_group c structure result layer H Hl).
  - intros layer i Hl.
    now apply (set_fills_other_group c structure result layer H Hl).
Qed.

Lemma recolor_scoped_witness :
  _set_fills_in_color_layer Titled.parse Titled.outside_svg (Some "blue")
    = Ok Titled.outside_blue /\
  attribute_at "@style" [Key "svg"; Key "g"; Idx 0; Key "rect"]
    Titled.outside_blue
    = Some (Some (XStr "fill:blue;fill-opacity:1")) /\
  attribute_at "@style" [Key "svg"; Key "g"; Idx 1; Key "rect"]
    Titled.outside_blue
    = attribute_at "@style" [Key "svg"; Key "g"; Idx 1; Key "rect"]
        Titled.outside_tree /\
  subtree [Key "svg"; Key "title"] Titled.outside_blue = Some (XStr "Knit") /\
  subtree [Key "svg"; Key "g"; Idx 1; Key "title"] Titled.outside_blue
    = Some (XStr "Other") /\
  subtree [Key "svg"; Key "g"; Idx 1] Titled.outside_blue
    = Some Titled.plain_group.
Proof.
  pose proof (recolor_scoped Titled.parse Titled.outside_svg "blue"
                Titled.outside_tree Titled.outside_blue eq_refl eq_refl)
    as (Hstyle & _ & _ & _ & Htext & _ & _ & _ & Hgroup).
  split; [reflexivity|]. split; [reflexivity|]. split; [|split; [|split]].
  - exact (Hstyle [Key "svg"; Key "g"; Idx 1; Key "rect"] eq_refl).
  - apply (Htext [Key "svg"; Key "title"] "Knit" eq_refl).
    intros [|? [|? [|? ?]]]; discriminate.
  - apply (Htext [Key "svg"; Key "g"; Idx 1; Key "title"] "Other" eq_refl).
    intros [|? [|? [|? [|? [|? ?]]]]]; discriminate.
  - exact (Hgroup Titled.plain_group 1 eq_refl eq_refl).
Defined.


(** ** Styled elements beside other elements *)

(** C3.  A styled element of a color layer is not rewritten when the layer
    also holds an element that is no node: here the layer holds a title
    and a rectangle whose style has a fill; the loop body alone would
    rewrite the rectangle, but line 113 calls [get] on the text of the
    title and the method raises [AttributeError]. *)
Lemma titled_layer_not_rewritten :
  well_formed Titled.layer_tree = true /\
  Titled.parse Titled.layer_svg = Ok Titled.layer_tree /\
  is_color_layer_child Titled.layer_tree [Key "svg"; Key "g"; Key "rect"]
    = true /\
  subtree [Key "svg"; Key "g"; Key "rect"] Titled.layer_tree
    = Some Titled.styled_rect /\
  recolor_element "blue" Titled.styled_rect
    = Ok (XDict [("@style", XStr "fill:blue;fill-opacity:1")]) /\
  _set_fills_in_color_layer Titled.parse Titled.layer_svg (Some "blue")
    = Raise AttributeError.
Proof. repeat split. Qed.

(** X13.  When every group of the document is recolorable (it is no color
    layer, or all the elements of its items are nodes whose style is a
    string or absent), recoloring returns, and in the tree it returns every
    direct child of a color layer that carries a style string [s] has the
    style [";".join(declarations)], where [declarations] has the length of
    [s.split(";")] and, position by position, holds [fill:<color>] where
    the declaration of [s] has the key [fill] and the declaration of [s]
    itself everywhere else. *)
Theorem styled_children_rewritten (parse : string -> result xml)
    (svg_string c : string) (structure svg layers : xml) :
  parse svg_string = Ok structure ->
  getitem structure "svg" = Ok svg ->
  getitem svg "g" = Ok layers ->
  forallb layer_recolorable (as_list layers) = true ->
  exists result,
    _set_fills_in_color_layer parse svg_string (Some c) = Ok result /\
    forall p d s,
      is_color_layer_child structure p = true ->
      subtree p structure = Some (XDict d) ->
      dict_lookup d "@style" = Some (XStr s) ->
      exists declarations : list string,
        subtree p result =
          Some (XDict (dict_set d "@style" (XStr (join ";" declarations)))) /\
        List.length declarations = List.length (split ";" s) /\
        forall i e, split ";" s !! i = Some e ->
          declarations !! i =
            Some (if is_fill_declaration e then "fill:" ++ c else e).
Proof.
  intros Hparse Hsvg Hg Hok.
  rewrite (set_fills_in_color_layer_parsed _ _ _ _ Hparse).
  pose proof (set_fills_outcome c structure svg layers Hsvg Hg) as H.
  rewrite Hok in H. destruct H as [result Hresult].
  exists result. split; [exact Hresult|].
  intros p d s Hp Hd Hs.
  exists (map (recolor_declaration c) (split ";" s)).
  split; [|split].
  - destruct (set_fills_visited c _ _ p Hresult Hp)
      as (e & e' & He & He' & Hr).
    rewrite Hd in He. injection He as <-.
    rewrite (recolor_element_style c d s Hs) in Hr.
    unfold recolor_style in Hr. congruence.
  - apply List.length_map.
  - intros i e Hi. rewrite lookup_map, Hi. simpl.
    unfold recolor_declaration. now rewrite startswith_fill.
Qed.

Lemma styled_children_rewritten_witness :
  exists result,
    _set_fills_in_color_layer Titled.parse Titled.outside_svg (Some "blue")
      = Ok result /\
    exists declarations : list string,
      subtree [Key "svg"; Key "g"; Idx 0; Key "rect"] result
        = Some (XDict [("@style", XStr (join ";" declarations))]) /\
      List.length declarations = 2 /\
      declarations !! 0 = Some "fill:blue" /\
      declarations !! 1 = Some "fill-opacity:1".
Proof.
  destruct (styled_children_rewritten Titled.parse Titled.outside_svg "blue"
              Titled.outside_tree _ _ eq_refl eq_refl eq_refl eq_refl)
    as (result & Hresult & Hchildren).
  exists result. split; [exact Hresult|].
  destruct (Hchildren [Key "svg"; Key "g"; Idx 0; Key "rect"]
              [("@style", XStr "fill:#ff0000;fill-opacity:1")]
              "fill:#ff0000;fill-opacity:1" eq_refl eq_refl eq_refl)
    as (declarations & H1 & H2 & H3).
  exists declarations. repeat split.
  - exact H1.
  - exact H2.
  - exact (H3 0 "fill:#ff0000" eq_refl).
  - exact (H3 1 "fill-opacity:1" eq_refl).
Defined.
